(** * Dynamic API-tool registration engine (turtlemint_server.py)

    A shallow embedding of the registration engine of the MCP server and
    the properties of its specification.

    Conventions of the embedding.
    - Python text is a Rocq [string]; a character is an 8-bit code unit.
      The model is exact for ASCII text (HTTP methods, MIME types, URL
      templates, identifiers); code units above 127 are carried through
      unchanged, have no case and are not identifier characters.
    - A decoded JSON document is a [json] value; a Python [dict] is an
      association list in insertion order with unique keys, its lookup
      takes the first binding.
    - A Python exception is a value of [exn]; code that may raise returns
      a [result].
    - Library calls whose behaviour lies outside the repository
      ([json.loads], [json.dumps], [str] of a container, the HTTP client)
      are the fields of the class [Runtime]; every property holds for
      every runtime. *)

From Stdlib Require Import ZArith List String Ascii Bool Lia Arith.
From Stdlib Require Import DecimalString.
Import ListNotations.
Local Open Scope string_scope.
Local Open Scope Z_scope.

Set Implicit Arguments.
Set Warnings "-register-all".

(* ------------------------------------------------------------------ *)
(** ** Text *)

Module Str.

Definition code (c : ascii) : Z := Z.of_nat (nat_of_ascii c).

Definition in_range (lo hi c : ascii) : bool :=
  (code lo <=? code c) && (code c <=? code hi).

Definition is_lower c := in_range "a" "z" c.
Definition is_upper c := in_range "A" "Z" c.
Definition is_digit c := in_range "0" "9" c.

Definition lower_char (c : ascii) : ascii :=
  if is_upper c then ascii_of_nat (nat_of_ascii c + 32) else c.
Definition upper_char (c : ascii) : ascii :=
  if is_lower c then ascii_of_nat (nat_of_ascii c - 32) else c.

Fixpoint map (f : ascii -> ascii) (s : string) : string :=
  match s with
  | EmptyString => EmptyString
  | String c r => String (f c) (map f r)
  end.

(** [str.lower()] and [str.upper()]. *)
Definition lower : string -> string := map lower_char.
Definition upper : string -> string := map upper_char.

Fixpoint filter (f : ascii -> bool) (s : string) : string :=
  match s with
  | EmptyString => EmptyString
  | String c r => if f c then String c (filter f r) else filter f r
  end.

Fixpoint forallb (f : ascii -> bool) (s : string) : bool :=
  match s with
  | EmptyString => true
  | String c r => f c && forallb f r
  end.

(** [s.replace(c, d)] for a one-character pattern [c]. *)
Fixpoint replace_char (c : ascii) (d : string) (s : string) : string :=
  match s with
  | EmptyString => EmptyString
  | String x r =>
      if Ascii.eqb x c then d ++ replace_char c d r
      else String x (replace_char c d r)
  end.

Fixpoint lstrip (c : ascii) (s : string) : string :=
  match s with
  | String x r => if Ascii.eqb x c then lstrip c r else s
  | EmptyString => EmptyString
  end.

Fixpoint rev_onto (s acc : string) : string :=
  match s with
  | EmptyString => acc
  | String x r => rev_onto r (String x acc)
  end.
Definition rev (s : string) : string := rev_onto s EmptyString.

(** [s.strip(c)] for a one-character set [c]. *)
Definition strip (c : ascii) (s : string) : string :=
  rev (lstrip c (rev (lstrip c s))).

(** [s[:n]]. *)
Fixpoint take (n : nat) (s : string) : string :=
  match n, s with
  | S n', String x r => String x (take n' r)
  | _, _ => EmptyString
  end.

(** [s[n:]]. *)
Fixpoint drop (n : nat) (s : string) : string :=
  match n, s with
  | S n', String _ r => drop n' r
  | _, _ => s
  end.

(** [s.find(sub, start)] relative to an offset [off] already consumed:
    the least index [i >= off] at which [sub] begins, or [-1]. *)
Fixpoint find_from (sub s : string) (off : Z) : Z :=
  if prefix sub s then off
  else match s with
       | EmptyString => -1
       | String _ r => find_from sub r (off + 1)
       end.

Definition find (sub s : string) : Z := find_from sub s 0.

Definition find_at (sub s : string) (start : Z) : Z :=
  find_from sub (drop (Z.to_nat start) s) start.

(** [sub in s]. *)
Definition contains (sub s : string) : bool := negb (find sub s =? -1).

(** [s.replace(old, new)] for a non-empty pattern [old]; [fuel] bounds the
    recursion by the length of [s]. *)
Fixpoint replace_fuel (fuel : nat) (old new s : string) : string :=
  match fuel with
  | O => s
  | S fuel' =>
      match s with
      | EmptyString => EmptyString
      | String x r =>
          if prefix old s
          then new ++ replace_fuel fuel' old new (drop (String.length old) s)
          else String x (replace_fuel fuel' old new r)
      end
  end.

Definition replace (old new s : string) : string :=
  replace_fuel (String.length s) old new s.

End Str.

(* ------------------------------------------------------------------ *)
(** ** Values, exceptions and results *)

(** A decoded JSON value, as [json.loads] yields it: [None], [bool],
    [int], [float] (kept as its [repr]), [str], [list] and [dict]. *)
Inductive json : Type :=
| JNull
| JBool (b : bool)
| JInt (n : Z)
| JFloat (repr : string)
| JStr (s : string)
| JArr (items : list json)
| JObj (members : list (string * json)).

Definition dict := list (string * json).

(** The exceptions the engine raises or lets through.  The HTTP client's
    decode error is both a [ValueError] and a [RequestException]. *)
Inductive exn : Type :=
| KeyError (key : string)
| IndexError
| TypeError
| AttributeError
| ValueError (msg : string)
| JSONDecodeError (msg : string)
| RequestException (msg : string)
| RequestsJSONDecodeError (msg : string)
| RuntimeError (msg : string) (cause : exn).

(** [isinstance(e, ValueError)] and [isinstance(e, RequestException)]. *)
Definition is_ValueError (e : exn) : bool :=
  match e with
  | ValueError _ | JSONDecodeError _ | RequestsJSONDecodeError _ => true
  | _ => false
  end.

Definition is_RequestException (e : exn) : bool :=
  match e with
  | RequestException _ | RequestsJSONDecodeError _ => true
  | _ => false
  end.

(** [str(e)] for the exceptions that are formatted into a message. *)
Definition exn_str (e : exn) : string :=
  match e with
  | KeyError k => "'" ++ k ++ "'"
  | IndexError => ""
  | TypeError => ""
  | AttributeError => ""
  | ValueError m | JSONDecodeError m | RequestException m
  | RequestsJSONDecodeError m => m
  | RuntimeError m _ => m
  end.

Inductive result (A : Type) : Type :=
| Ok (a : A)
| Raise (e : exn).
Arguments Ok {A} a.
Arguments Raise {A} e.

Definition bind {A B} (r : result A) (k : A -> result B) : result B :=
  match r with
  | Ok a => k a
  | Raise e => Raise e
  end.

Declare Scope result_scope.
Delimit Scope result_scope with result.
Notation "x <- r ;; k" := (bind r (fun x => k))
  (at level 61, r at next level, right associativity) : result_scope.
Notation "' p <- r ;; k" := (bind r (fun p => k))
  (at level 61, p pattern, r at next level, right associativity) : result_scope.

Definition is_ok {A} (r : result A) : bool :=
  match r with Ok _ => true | Raise _ => false end.

(** A [for] loop whose body may raise, threading an accumulator. *)
Fixpoint for_each {A S} (body : S -> A -> result S) (xs : list A) (s : S)
  : result S :=
  match xs with
  | [] => Ok s
  | x :: xs' => bind (body s x) (for_each body xs')
  end.

(* ------------------------------------------------------------------ *)
(** ** Python operations on decoded values *)

Module Py.

(** Truth value, as [if v:] and [not v] test it. *)
Definition truthy (v : json) : bool :=
  match v with
  | JNull => false
  | JBool b => b
  | JInt n => negb (n =? 0)
  | JFloat r => negb (String.eqb r "0.0" || String.eqb r "-0.0")
  | JStr s => negb (String.eqb s "")
  | JArr l => match l with [] => false | _ => true end
  | JObj m => match m with [] => false | _ => true end
  end.

Definition is_none (v : json) : bool :=
  match v with JNull => true | _ => false end.

Fixpoint lookup (k : string) (d : dict) : option json :=
  match d with
  | [] => None
  | (k', v) :: d' => if String.eqb k' k then Some v else lookup k d'
  end.

Definition has_key (k : string) (d : dict) : bool :=
  match lookup k d with Some _ => true | None => false end.

Definition keys (d : dict) : list string := List.map fst d.

(** [d[k] = v]: an existing key keeps its position, a new key goes last. *)
Fixpoint setitem (k : string) (v : json) (d : dict) : dict :=
  match d with
  | [] => [(k, v)]
  | (k', v') :: d' =>
      if String.eqb k' k then (k, v) :: d' else (k', v') :: setitem k v d'
  end.

(** [d.update(e)]. *)
Definition update (d e : dict) : dict :=
  fold_left (fun acc kv => setitem (fst kv) (snd kv) acc) e d.

(** [v.get(k, default)]: only a [dict] has the method. *)
Definition get (v : json) (k : string) (default : json) : result json :=
  match v with
  | JObj d => Ok (match lookup k d with Some x => x | None => default end)
  | _ => Raise AttributeError
  end.

(** [v[k]] for a string subscript. *)
Definition getitem (v : json) (k : string) : result json :=
  match v with
  | JObj d => match lookup k d with
              | Some x => Ok x
              | None => Raise (KeyError k)
              end
  | _ => Raise TypeError
  end.

Fixpoint chars (s : string) : list json :=
  match s with
  | EmptyString => []
  | String c r => JStr (String c EmptyString) :: chars r
  end.

(** The items a [for] loop over [v] visits. *)
Definition iter (v : json) : result (list json) :=
  match v with
  | JArr l => Ok l
  | JObj d => Ok (List.map (fun k => JStr k) (keys d))
  | JStr s => Ok (chars s)
  | _ => Raise TypeError
  end.

(** [v.items()]. *)
Definition items (v : json) : result dict :=
  match v with
  | JObj d => Ok d
  | _ => Raise AttributeError
  end.

Definition eq_str (k : string) (v : json) : bool :=
  match v with JStr s => String.eqb s k | _ => false end.

(** [k in v] for a string [k]. *)
Definition contains (k : string) (v : json) : result bool :=
  match v with
  | JObj d => Ok (has_key k d)
  | JArr l => Ok (existsb (eq_str k) l)
  | JStr s => Ok (Str.contains k s)
  | _ => Raise TypeError
  end.

End Py.

(* ------------------------------------------------------------------ *)
(** ** [hashlib.md5(...).hexdigest()] (RFC 1321) *)

Module MD5.

Definition w32 (x : Z) : Z := x mod 2 ^ 32.

Definition rotl (x n : Z) : Z :=
  w32 (Z.lor (Z.shiftl x n) (Z.shiftr x (32 - n))).

Definition not32 (x : Z) : Z := Z.lxor x 0xffffffff.

Definition K : list Z :=
  [ 0xd76aa478; 0xe8c7b756; 0x242070db; 0xc1bdceee;
    0xf57c0faf; 0x4787c62a; 0xa8304613; 0xfd469501;
    0x698098d8; 0x8b44f7af; 0xffff5bb1; 0x895cd7be;
    0x6b901122; 0xfd987193; 0xa679438e; 0x49b40821;
    0xf61e2562; 0xc040b340; 0x265e5a51; 0xe9b6c7aa;
    0xd62f105d; 0x02441453; 0xd8a1e681; 0xe7d3fbc8;
    0x21e1cde6; 0xc33707d6; 0xf4d50d87; 0x455a14ed;
    0xa9e3e905; 0xfcefa3f8; 0x676f02d9; 0x8d2a4c8a;
    0xfffa3942; 0x8771f681; 0x6d9d6122; 0xfde5380c;
    0xa4beea44; 0x4bdecfa9; 0xf6bb4b60; 0xbebfbc70;
    0x289b7ec6; 0xeaa127fa; 0xd4ef3085; 0x04881d05;
    0xd9d4d039; 0xe6db99e5; 0x1fa27cf8; 0xc4ac5665;
    0xf4292244; 0x432aff97; 0xab9423a7; 0xfc93a039;
    0x655b59c3; 0x8f0ccc92; 0xffeff47d; 0x85845dd1;
    0x6fa87e4f; 0xfe2ce6e0; 0xa3014314; 0x4e0811a1;
    0xf7537e82; 0xbd3af235; 0x2ad7d2bb; 0xeb86d391 ].

Definition shifts : list Z :=
  [ 7; 12; 17; 22; 7; 12; 17; 22; 7; 12; 17; 22; 7; 12; 17; 22;
    5;  9; 14; 20; 5;  9; 14; 20; 5;  9; 14; 20; 5;  9; 14; 20;
    4; 11; 16; 23; 4; 11; 16; 23; 4; 11; 16; 23; 4; 11; 16; 23;
    6; 10; 15; 21; 6; 10; 15; 21; 6; 10; 15; 21; 6; 10; 15; 21 ].

Record state := St { sa : Z; sb : Z; sc : Z; sd : Z }.

Definition init : state :=
  St 0x67452301 0xefcdab89 0x98badcfe 0x10325476.

(** One of the 64 operations of a block; [M] holds its sixteen words. *)
Definition step (M : list Z) (i : nat) (s : state) : state :=
  let '(St A B C D) := s in
  let iz := Z.of_nat i in
  let '(F, g) :=
    if iz <? 16 then (Z.lor (Z.land B C) (Z.land (not32 B) D), iz)
    else if iz <? 32 then
      (Z.lor (Z.land D B) (Z.land (not32 D) C), (5 * iz + 1) mod 16)
    else if iz <? 48 then (Z.lxor B (Z.lxor C D), (3 * iz + 5) mod 16)
    else (Z.lxor C (Z.lor B (not32 D)), (7 * iz) mod 16) in
  let F' := w32 (F + A + nth i K 0 + nth (Z.to_nat g) M 0) in
  St D (w32 (B + rotl F' (nth i shifts 0))) B C.

Definition word_le (b0 b1 b2 b3 : Z) : Z :=
  b0 + 256 * b1 + 65536 * b2 + 16777216 * b3.

Fixpoint words (bs : list Z) : list Z :=
  match bs with
  | b0 :: b1 :: b2 :: b3 :: r => word_le b0 b1 b2 b3 :: words r
  | _ => []
  end.

Definition block (s : state) (bs : list Z) : state :=
  let M := words bs in
  let r := fold_left (fun acc i => step M i acc) (seq 0 64) s in
  St (w32 (sa s + sa r)) (w32 (sb s + sb r))
     (w32 (sc s + sc r)) (w32 (sd s + sd r)).

Fixpoint blocks (n : nat) (s : state) (bs : list Z) : state :=
  match n with
  | O => s
  | S n' => blocks n' (block s (firstn 64 bs)) (skipn 64 bs)
  end.

Definition le_bytes (n : nat) (x : Z) : list Z :=
  List.map (fun k => (x / 256 ^ Z.of_nat k) mod 256) (seq 0 n).

(** The message, the byte [0x80], zeros up to 56 modulo 64, and the bit
    length on eight bytes. *)
Definition pad (bs : list Z) : list Z :=
  let len := Z.of_nat (List.length bs) in
  let zeros := Z.to_nat ((55 - len) mod 64) in
  bs ++ [128] ++ repeat 0 zeros ++ le_bytes 8 ((8 * len) mod 2 ^ 64).

Definition digest (bs : list Z) : list Z :=
  let p := pad bs in
  let s := blocks (List.length p / 64) init p in
  le_bytes 4 (sa s) ++ le_bytes 4 (sb s) ++ le_bytes 4 (sc s)
    ++ le_bytes 4 (sd s).

Definition hex_digit (n : Z) : ascii :=
  match String.get (Z.to_nat (n mod 16)) "0123456789abcdef" with
  | Some c => c
  | None => "0"%char
  end.

Fixpoint hex (bs : list Z) : string :=
  match bs with
  | [] => EmptyString
  | b :: r => String (hex_digit (b / 16)) (String (hex_digit b) (hex r))
  end.

Fixpoint bytes_of (s : string) : list Z :=
  match s with
  | EmptyString => []
  | String c r => Str.code c :: bytes_of r
  end.

(** [hashlib.md5(s.encode()).hexdigest()] for ASCII [s]. *)
Definition hexdigest (s : string) : string := hex (digest (bytes_of s)).

End MD5.

(* ------------------------------------------------------------------ *)
(** ** More Python primitives: [str], [repr], [inspect] *)

Module PyStr.

Definition decimal (n : Z) : string := NilZero.string_of_int (Z.to_int n).

(** [repr(s)] of a string without quote, backslash or control
    character. *)
Definition repr_str (s : string) : string := "'" ++ s ++ "'".

Definition keywords : list string :=
  [ "False"; "None"; "True"; "and"; "as"; "assert"; "async"; "await";
    "break"; "class"; "continue"; "def"; "del"; "elif"; "else"; "except";
    "finally"; "for"; "from"; "global"; "if"; "import"; "in"; "is";
    "lambda"; "nonlocal"; "not"; "or"; "pass"; "raise"; "return"; "try";
    "while"; "with"; "yield" ].

Definition iskeyword (s : string) : bool := existsb (String.eqb s) keywords.

Definition is_ident_start (c : ascii) : bool :=
  Str.is_lower c || Str.is_upper c || Ascii.eqb c "_".
Definition is_ident_char (c : ascii) : bool :=
  is_ident_start c || Str.is_digit c.

Definition isidentifier (s : string) : bool :=
  match s with
  | EmptyString => false
  | String c r => is_ident_start c && Str.forallb is_ident_char r
  end.

Definition isdigit (s : string) : bool :=
  match s with
  | EmptyString => false
  | _ => Str.forallb Str.is_digit s
  end.

End PyStr.

Module Inspect.

Inductive kind : Type := POSITIONAL_ONLY | POSITIONAL_OR_KEYWORD.

Definition kind_lt (a b : kind) : bool :=
  match a, b with
  | POSITIONAL_ONLY, POSITIONAL_OR_KEYWORD => true
  | _, _ => false
  end.

Definition description (k : kind) : string :=
  match k with
  | POSITIONAL_ONLY => "positional-only"
  | POSITIONAL_OR_KEYWORD => "positional or keyword"
  end.

(** A parameter of a signature; [p_default = None] is [Parameter.empty]:
    the argument is required. *)
Record parameter : Type :=
  Param { p_name : string; p_kind : kind; p_default : option json }.

(** [inspect.Parameter(name, POSITIONAL_OR_KEYWORD, default=...)]. *)
Definition new_parameter (name : string) (default : option json)
  : result parameter :=
  match name with
  | EmptyString => Raise IndexError
  | String c rest =>
      let '(name', k) :=
        if Ascii.eqb c "." && PyStr.isdigit rest
        then ("implicit" ++ rest, POSITIONAL_ONLY)
        else (name, POSITIONAL_OR_KEYWORD) in
      let is_keyword :=
        PyStr.iskeyword name'
        && match k with POSITIONAL_ONLY => false | _ => true end in
      if is_keyword || negb (PyStr.isidentifier name')
      then Raise (ValueError
                    (PyStr.repr_str name' ++ " is not a valid parameter name"))
      else Ok (Param name' k default)
  end.

Fixpoint validate (ps : list parameter) (top_kind : kind)
    (kind_defaults : bool) (seen : list string) : result unit :=
  match ps with
  | [] => Ok tt
  | p :: ps' =>
      let k := p_kind p in
      if kind_lt k top_kind
      then Raise (ValueError
                    ("wrong parameter order: " ++ description top_kind
                     ++ " parameter before " ++ description k
                     ++ " parameter"))
      else
        let kind_defaults := if kind_lt top_kind k then false
                             else kind_defaults in
        let top_kind := if kind_lt top_kind k then k else top_kind in
        match p_default p, kind_defaults with
        | None, true =>
            Raise (ValueError "non-default argument follows default argument")
        | d, _ =>
            let kind_defaults :=
              match d with Some _ => true | None => kind_defaults end in
            if existsb (String.eqb (p_name p)) seen
            then Raise (ValueError
                          ("duplicate parameter name: "
                           ++ PyStr.repr_str (p_name p)))
            else validate ps' top_kind kind_defaults (p_name p :: seen)
        end
  end.

(** [inspect.Signature(parameters)]. *)
Definition new_signature (ps : list parameter) : result (list parameter) :=
  bind (validate ps POSITIONAL_ONLY false []) (fun _ => Ok ps).

End Inspect.

(* ------------------------------------------------------------------ *)
(** ** The HTTP client and the library runtime *)

Inductive verb : Type := GET | POST | PUT | DELETE.

(** One call of [requests.get/post/put/delete]; a keyword that is not
    passed is [None] ([JNull] for [json=]). *)
Record http_call : Type :=
  Call { c_verb : verb;
         c_url : string;
         c_json : json;
         c_params : option dict;
         c_headers : option dict }.

Record response : Type :=
  Response { status_code : Z;
             reason : string;
             resp_url : string;
             content_type_header : option string;
             text : string }.

(** What the libraries do.  [json_loads] returns the decoded value or the
    message of its [JSONDecodeError]; [send] answers a call, given the
    calls made before it, with a response or with the message of a
    [RequestException] (connection error, timeout, invalid header). *)
Class Runtime : Type :=
  { json_loads : string -> string + json;
    json_dumps_indent2 : json -> string;
    str_container : json -> string;
    send : list http_call -> http_call -> string + response }.

(** Computations that call the network: the calls made so far are
    threaded through. *)
Definition IO (A : Type) : Type :=
  list http_call -> result A * list http_call.

Definition io_ret {A} (a : A) : IO A := fun log => (Ok a, log).
Definition io_raise {A} (e : exn) : IO A := fun log => (Raise e, log).
Definition io_lift {A} (r : result A) : IO A := fun log => (r, log).
Definition io_bind {A B} (m : IO A) (k : A -> IO B) : IO B :=
  fun log =>
    match m log with
    | (Ok a, log') => k a log'
    | (Raise e, log') => (Raise e, log')
    end.

(** [try: m except C as e: h e], for the exception class [C] that
    [catches] recognises. *)
Definition io_try {A} (m : IO A) (catches : exn -> bool) (h : exn -> IO A)
  : IO A :=
  fun log =>
    match m log with
    | (Raise e, log') => if catches e then h e log' else (Raise e, log')
    | ok => ok
    end.

Declare Scope io_scope.
Delimit Scope io_scope with io.
Notation "x <- m ;; k" := (io_bind m (fun x => k))
  (at level 61, m at next level, right associativity) : io_scope.

Section Engine.

Context {R : Runtime}.

Definition request (c : http_call) : IO response :=
  fun log =>
    (match send log c with
     | inl msg => Raise (RequestException msg)
     | inr r => Ok r
     end, (log ++ [c])%list).

(** [resp.raise_for_status()]. *)
Definition raise_for_status (r : response) : result unit :=
  let st := status_code r in
  if (400 <=? st) && (st <? 500)
  then Raise (RequestException
                (PyStr.decimal st ++ " Client Error: " ++ reason r
                 ++ " for url: " ++ resp_url r))
  else if (500 <=? st) && (st <? 600)
  then Raise (RequestException
                (PyStr.decimal st ++ " Server Error: " ++ reason r
                 ++ " for url: " ++ resp_url r))
  else Ok tt.

(** [resp.json()]. *)
Definition response_json (r : response) : result json :=
  match json_loads (text r) with
  | inl msg => Raise (RequestsJSONDecodeError msg)
  | inr v => Ok v
  end.

(** [str(v)], as f-strings and [str()] format a decoded value. *)
Definition py_str (v : json) : string :=
  match v with
  | JNull => "None"
  | JBool true => "True"
  | JBool false => "False"
  | JInt n => PyStr.decimal n
  | JFloat r => r
  | JStr s => s
  | JArr _ | JObj _ => str_container v
  end.

(* ------------------------------------------------------------------ *)
(** ** turtlemint_server.py *)

Definition BASE_URL : string := "https://app.turtlemint.com".
Definition OPENAPI_URL : string :=
  "https://app.turtlemint.com/api/docs/swagger-ui-init.js".

Definition sanitize_name (name : string) : string :=
  Str.replace_char "-" "_" name.

Definition unsanitize_name (name : string) : string :=
  Str.replace_char "_" "-" name.

(** A call of [sanitize_name] on a decoded value: only a [str] has
    [replace]. *)
Definition call_sanitize_name (name : json) : result string :=
  match name with
  | JStr s => Ok (sanitize_name s)
  | _ => Raise AttributeError
  end.

Definition make_api_request (method endpoint : string) (data : json)
    (params : dict) (headers : dict) : IO json :=
  let url := BASE_URL ++ endpoint in
  let final_headers :=
    [("Content-Type", JStr "application/json");
     ("Accept", JStr "application/json")] in
  let final_headers :=
    if Py.truthy (JObj headers) then Py.update final_headers headers
    else final_headers in
  let after (call : http_call) : IO json :=
    (response <- request call ;;
     match response_json response with
     | Ok v => io_ret v
     | Raise e =>
         if is_ValueError e
         then io_ret (JObj [("raw_response", JStr (text response))])
         else io_raise e
     end)%io in
  let m := Str.lower method in
  io_try
    (if String.eqb m "get"
     then after (Call GET url JNull (Some params) (Some final_headers))
     else if String.eqb m "post"
     then after (Call POST url data (Some params) (Some final_headers))
     else if String.eqb m "put"
     then after (Call PUT url data (Some params) (Some final_headers))
     else if String.eqb m "delete"
     then after (Call DELETE url JNull (Some params) (Some final_headers))
     else io_ret (JObj [("error", JStr "Invalid HTTP method")]))
    is_RequestException
    (fun e =>
       io_ret (JObj [("error",
                      JStr ("API request failed: " ++ exn_str e))])).

Definition newline : string := String (ascii_of_nat 10) EmptyString.

Definition format_api_response (response : json) : string :=
  match response with
  | JObj d =>
      match Py.lookup "error" d with
      | Some err =>
          "Error: " ++ py_str err ++ newline ++ newline ++ "Details: "
          ++ py_str (match Py.lookup "details" d with
                     | Some x => x
                     | None => JStr "No additional details"
                     end)
      | None => json_dumps_indent2 response
      end
  | _ => json_dumps_indent2 response
  end.

(** The loop of [extract_swagger_doc_from_js] from index [i] on, [s]
    being [js_code[i:]]: the index at which [count] returns to zero. *)
Fixpoint scan_braces (s : string) (count : Z) (i : Z) : option Z :=
  match s with
  | EmptyString => None
  | String c r =>
      if Ascii.eqb c "{" then scan_braces r (count + 1) (i + 1)
      else if Ascii.eqb c "}" then
        if count - 1 =? 0 then Some i
        else scan_braces r (count - 1) (i + 1)
      else scan_braces r count (i + 1)
  end.

(** [s[i:j]] for [0 <= i]. *)
Definition slice (i j : Z) (s : string) : string :=
  Str.take (Z.to_nat (j - i)) (Str.drop (Z.to_nat i) s).

Definition extract_swagger_doc_from_js (js_code : string) : result json :=
  let key := "swaggerDoc" in
  let start_idx := Str.find key js_code in
  if start_idx =? -1
  then Raise (ValueError "No 'swaggerDoc' found in JS content")
  else
    let brace_start := Str.find_at "{" js_code start_idx in
    if brace_start =? -1
    then Raise (ValueError "Opening brace for swaggerDoc not found")
    else
      match scan_braces (Str.drop (Z.to_nat brace_start) js_code)
                        0 brace_start with
      | Some i =>
          let json_str := slice brace_start (i + 1) js_code in
          match json_loads json_str with
          | inr v => Ok v
          | inl msg =>
              Raise (ValueError ("Failed to parse swaggerDoc JSON: " ++ msg))
          end
      | None => Raise (ValueError "Unmatched braces while parsing swaggerDoc")
      end.

Definition get_openapi_spec : IO json :=
  io_try
    (resp <- request (Call GET OPENAPI_URL JNull None None) ;;
     _ <- io_lift (raise_for_status resp) ;;
     let content_type :=
       Str.lower (match content_type_header resp with
                  | Some h => h
                  | None => ""
                  end) in
     if Str.contains "application/javascript" content_type
     then io_lift (extract_swagger_doc_from_js (text resp))
     else if Str.contains "application/json" content_type
     then io_lift (response_json resp)
     else io_raise
            (ValueError ("Unsupported content-type: " ++ content_type)))%io
    is_RequestException
    (fun e =>
       io_raise (RuntimeError
                   ("Failed to fetch OpenAPI spec: " ++ exn_str e) e)).

(** The type hint of line 99: [param.get("type") or
    (param.get("schema") or {}).get("type", "str")]. *)
Definition param_type_hint (param : json) : result json :=
  (ty <- Py.get param "type" JNull ;;
   if Py.truthy ty then Ok ty
   else
     schema <- Py.get param "schema" JNull ;;
     Py.get (if Py.truthy schema then schema else JObj [])
            "type" (JStr "str"))%result.

Definition parse_parameters (parameters : json)
  : result (list string * dict) :=
  (ps <- Py.iter parameters ;;
   for_each
     (fun (acc : list string * dict) (param : json) =>
        let '(args, defaults) := acc in
        raw <- Py.getitem param "name" ;;
        name <- call_sanitize_name raw ;;
        required <- Py.get param "required" (JBool false) ;;
        param_type <- param_type_hint param ;;
        let defaults :=
          if negb (Py.truthy required) then Py.setitem name JNull defaults
          else defaults in
        Ok ((args ++ [name])%list, defaults))
     ps ([], []))%result.

(** Lines 106-117 of [build_func]: the parameters and request body of the
    operation, and the arguments with their defaults. *)
Definition build_func_args (operation : json)
  : result (json * json * (list string * dict)) :=
  (parameters <- Py.get operation "parameters" (JArr []) ;;
   request_body <- Py.get operation "requestBody" JNull ;;
   resolved <-
     (if Py.truthy request_body then
        content <- Py.get request_body "content" (JObj []) ;;
        has_json <- Py.contains "application/json" content ;;
        if (has_json : bool) then
          ' (args, defaults) <- parse_parameters parameters ;;
          Ok ((args ++ ["body"])%list, Py.setitem "body" JNull defaults)
        else parse_parameters parameters
      else parse_parameters parameters) ;;
   Ok (parameters, request_body, resolved))%result.

(** What the handler hands to the transport. *)
Record api_request : Type :=
  ApiRequest { rq_method : string;
               rq_path : string;
               rq_data : json;
               rq_params : dict;
               rq_headers : dict }.

(** [kwargs.get(name)]. *)
Definition kwargs_get (kwargs : dict) (name : string) : json :=
  match Py.lookup name kwargs with
  | Some v => v
  | None => JNull
  end.

(** The path, query and header mappings the loop of [api_tool] builds. *)
Definition collect_params (parameters : json) (kwargs : dict)
  : result (dict * dict * dict) :=
  (ps <- Py.iter parameters ;;
   for_each
     (fun (acc : dict * dict * dict) (param : json) =>
        let '(path_params, query_params, headers) := acc in
        raw <- Py.getitem param "name" ;;
        param_location <- Py.get param "in" (JStr "query") ;;
        match raw with
        | JStr raw_name =>
            let sanitized_name := sanitize_name raw_name in
            let value := kwargs_get kwargs sanitized_name in
            if Py.is_none value then Ok acc
            else if Py.eq_str "path" param_location
            then Ok (Py.setitem raw_name value path_params,
                     query_params, headers)
            else if Py.eq_str "query" param_location
            then Ok (path_params,
                     Py.setitem raw_name value query_params, headers)
            else if Py.eq_str "header" param_location
            then Ok (path_params, query_params,
                     Py.setitem raw_name value headers)
            else Ok acc
        | _ => Raise AttributeError
        end)
     ps ([], [], []))%result.

(** The substitution loop: each [{name}] is replaced by [str(value)]. *)
Definition substitute_path (endpoint : string) (path_params : dict)
  : string :=
  fold_left
    (fun path kv => Str.replace ("{" ++ fst kv ++ "}") (py_str (snd kv)) path)
    path_params endpoint.

(** [api_tool] up to the call of [make_api_request]. *)
Definition api_tool_request (endpoint method : string)
    (parameters request_body : json) (kwargs : dict) : result api_request :=
  (' (path_params, query_params, headers) <-
     collect_params parameters kwargs ;;
   let body :=
     if Py.truthy request_body && Py.has_key "body" kwargs
     then kwargs_get kwargs "body"
     else JNull in
   let path := substitute_path endpoint path_params in
   Ok (ApiRequest method path body query_params headers))%result.

Definition api_tool (endpoint method : string)
    (parameters request_body : json) (kwargs : dict) : IO string :=
  (rq <- io_lift (api_tool_request endpoint method parameters request_body
                                   kwargs) ;;
   response <- make_api_request (rq_method rq) (rq_path rq) (rq_data rq)
                                (rq_params rq) (rq_headers rq) ;;
   io_ret (format_api_response response))%io.

(** The callable [build_func] returns: the values its closure captures,
    its [__signature__] and its [__doc__]. *)
Record tool : Type :=
  Tool { tool_endpoint : string;
         tool_method : string;
         tool_parameters : json;
         tool_request_body : json;
         tool_signature : list Inspect.parameter;
         tool_doc : json }.

Definition call_tool (t : tool) (kwargs : dict) : IO string :=
  api_tool (tool_endpoint t) (tool_method t) (tool_parameters t)
           (tool_request_body t) kwargs.

Definition default_of (defaults : dict) (arg : string) : json :=
  match Py.lookup arg defaults with
  | Some v => v
  | None => JNull
  end.

Definition build_func (endpoint method : string) (operation : json)
  : result tool :=
  (' (parameters, request_body, (args, defaults)) <-
     build_func_args operation ;;
   summary <- Py.get operation "summary"
                (JStr (Str.upper method ++ " " ++ endpoint)) ;;
   let required :=
     List.filter (fun arg => negb (Py.has_key arg defaults)) args in
   let optional := List.filter (fun arg => Py.has_key arg defaults) args in
   sig_required <-
     for_each (fun acc arg =>
                 p <- Inspect.new_parameter arg None ;;
                 Ok (acc ++ [p])%list)
              required [] ;;
   sig_params <-
     for_each (fun acc arg =>
                 p <- Inspect.new_parameter arg
                        (Some (default_of defaults arg)) ;;
                 Ok (acc ++ [p])%list)
              optional sig_required ;;
   signature <- Inspect.new_signature sig_params ;;
   Ok (Tool endpoint method parameters request_body signature summary))%result.

Definition allowed_char (c : ascii) : bool :=
  Str.is_lower c || Str.is_upper c || Str.is_digit c
  || Ascii.eqb c "_" || Ascii.eqb c "-".

Definition sanitize_tool_name (method endpoint : string) : string :=
  let raw_name :=
    method ++ "_"
    ++ Str.replace_char "}" ""
         (Str.replace_char "{" ""
            (Str.replace_char "/" "_" (Str.strip "/" endpoint))) in
  let cleaned := Str.filter allowed_char raw_name in
  if (64 <? Z.of_nat (String.length cleaned))
  then
    let hash_suffix := Str.take 8 (MD5.hexdigest cleaned) in
    Str.take 55 cleaned ++ "_" ++ hash_suffix
  else cleaned.

(** One call [mcp.tool(description=..., name=...)(func)] of the
    registry. *)
Record registration : Type :=
  Registration { reg_name : string;
                 reg_description : json;
                 reg_func : tool }.

(** The two nested loops of [register_all_tools] over a fetched
    document. *)
Definition register_spec (spec : json) : result (list registration) :=
  (paths <- Py.getitem spec "paths" ;;
   path_items <- Py.items paths ;;
   for_each
     (fun registry (path_item : string * json) =>
        let '(endpoint, ops) := path_item in
        op_items <- Py.items ops ;;
        for_each
          (fun registry (op_item : string * json) =>
             let '(method, operation) := op_item in
             summary <- Py.get operation "summary"
                          (JStr (Str.upper method ++ " " ++ endpoint)) ;;
             func <- build_func endpoint method operation ;;
             let tool_name := sanitize_tool_name method endpoint in
             Ok (registry ++ [Registration tool_name summary func])%list)
          op_items registry)
     path_items [])%result.

Definition register_all_tools : IO (list registration) :=
  (spec <- get_openapi_spec ;;
   io_lift (register_spec spec))%io.

End Engine.

(* ------------------------------------------------------------------ *)
(** ** A concrete runtime for the examples

    A reader and a printer for the JSON subset of the examples (objects,
    arrays, strings without escapes, integers, [true], [false], [null])
    stand in for [json.loads] and [json.dumps], and a canned server for
    the network. *)

Module Demo.

Definition dq : string := String (ascii_of_nat 34) EmptyString.

Inductive token : Type :=
| TLBrace | TRBrace | TLBracket | TRBracket | TColon | TComma
| TString (s : string) | TInt (n : Z) | TTrue | TFalse | TNull.

(** The characters up to the closing quote, and what follows it. *)
Fixpoint lex_string (s : string) : option (string * string) :=
  match s with
  | EmptyString => None
  | String c r =>
      if Ascii.eqb c (ascii_of_nat 34) then Some (EmptyString, r)
      else if Ascii.eqb c (ascii_of_nat 92) then None
      else match lex_string r with
           | Some (body, rest) => Some (String c body, rest)
           | None => None
           end
  end.

Fixpoint lex_digits (s : string) (acc : Z) : Z * string :=
  match s with
  | String c r =>
      if Str.is_digit c
      then lex_digits r (10 * acc + (Str.code c - 48))
      else (acc, s)
  | EmptyString => (acc, s)
  end.

Definition is_space (c : ascii) : bool :=
  Ascii.eqb c " " || Ascii.eqb c (ascii_of_nat 10)
  || Ascii.eqb c (ascii_of_nat 13) || Ascii.eqb c (ascii_of_nat 9).

Fixpoint lex (fuel : nat) (s : string) : option (list token) :=
  match fuel with
  | O => match s with EmptyString => Some [] | _ => None end
  | S fuel' =>
      match s with
      | EmptyString => Some []
      | String c r =>
          let cons (t : token) (rest : string) :=
            option_map (fun ts => t :: ts) (lex fuel' rest) in
          if is_space c then lex fuel' r
          else if Ascii.eqb c "{" then cons TLBrace r
          else if Ascii.eqb c "}" then cons TRBrace r
          else if Ascii.eqb c "[" then cons TLBracket r
          else if Ascii.eqb c "]" then cons TRBracket r
          else if Ascii.eqb c ":" then cons TColon r
          else if Ascii.eqb c "," then cons TComma r
          else if Ascii.eqb c (ascii_of_nat 34) then
            match lex_string r with
            | Some (body, rest) => cons (TString body) rest
            | None => None
            end
          else if Str.is_digit c then
            let '(n, rest) := lex_digits s 0 in cons (TInt n) rest
          else if Ascii.eqb c "-" then
            match r with
            | String d _ =>
                if Str.is_digit d
                then let '(n, rest) := lex_digits r 0 in cons (TInt (- n)) rest
                else None
            | EmptyString => None
            end
          else if prefix "true" s then cons TTrue (Str.drop 4 s)
          else if prefix "false" s then cons TFalse (Str.drop 5 s)
          else if prefix "null" s then cons TNull (Str.drop 4 s)
          else None
      end
  end.

Fixpoint parse_value (fuel : nat) (ts : list token)
  : option (json * list token) :=
  match fuel with
  | O => None
  | S fuel' =>
      match ts with
      | TString s :: r => Some (JStr s, r)
      | TInt n :: r => Some (JInt n, r)
      | TTrue :: r => Some (JBool true, r)
      | TFalse :: r => Some (JBool false, r)
      | TNull :: r => Some (JNull, r)
      | TLBracket :: TRBracket :: r => Some (JArr [], r)
      | TLBracket :: r =>
          match parse_elements fuel' r with
          | Some (l, r') => Some (JArr l, r')
          | None => None
          end
      | TLBrace :: TRBrace :: r => Some (JObj [], r)
      | TLBrace :: r =>
          match parse_members fuel' r [] with
          | Some (d, r') => Some (JObj d, r')
          | None => None
          end
      | _ => None
      end
  end
with parse_elements (fuel : nat) (ts : list token)
  : option (list json * list token) :=
  match fuel with
  | O => None
  | S fuel' =>
      match parse_value fuel' ts with
      | Some (v, TComma :: r) =>
          match parse_elements fuel' r with
          | Some (l, r') => Some (v :: l, r')
          | None => None
          end
      | Some (v, TRBracket :: r) => Some ([v], r)
      | _ => None
      end
  end
with parse_members (fuel : nat) (ts : list token) (acc : dict)
  : option (dict * list token) :=
  match fuel with
  | O => None
  | S fuel' =>
      match ts with
      | TString k :: TColon :: r =>
          match parse_value fuel' r with
          | Some (v, TComma :: r') =>
              parse_members fuel' r' (Py.setitem k v acc)
          | Some (v, TRBrace :: r') => Some (Py.setitem k v acc, r')
          | _ => None
          end
      | _ => None
      end
  end.

Definition loads (s : string) : string + json :=
  match lex (String.length s) s with
  | Some ts =>
      match parse_value (S (List.length ts)) ts with
      | Some (v, []) => inr v
      | _ => inl "Expecting value"
      end
  | None => inl "Expecting value"
  end.

Fixpoint join (sep : string) (l : list string) : string :=
  match l with
  | [] => EmptyString
  | [x] => x
  | x :: r => x ++ sep ++ join sep r
  end.

Fixpoint dumps (v : json) : string :=
  match v with
  | JNull => "null"
  | JBool true => "true"
  | JBool false => "false"
  | JInt n => PyStr.decimal n
  | JFloat r => r
  | JStr s => dq ++ s ++ dq
  | JArr l => "[" ++ join ", " (List.map dumps l) ++ "]"
  | JObj d =>
      "{" ++ join ", "
               (List.map
                  (fun kv => dq ++ fst kv ++ dq ++ ": " ++ dumps (snd kv)) d)
      ++ "}"
  end.

(** The document of the end-to-end scenario, as the server sends it. *)
Definition petstore_text : string :=
  "{" ++ dq ++ "paths" ++ dq ++ ": {" ++ dq ++ "/pet/{petId}" ++ dq ++ ": {"
  ++ dq ++ "get" ++ dq ++ ": {" ++ dq ++ "summary" ++ dq ++ ": " ++ dq
  ++ "Find pet" ++ dq ++ ", " ++ dq ++ "parameters" ++ dq ++ ": [{" ++ dq
  ++ "name" ++ dq ++ ":" ++ dq ++ "petId" ++ dq ++ "," ++ dq ++ "in" ++ dq
  ++ ":" ++ dq ++ "path" ++ dq ++ "," ++ dq ++ "required" ++ dq
  ++ ":true}]}}}}".

(** A server that sends the scenario's document as JSON from the
    specification URL and an empty object from every other URL. *)
Definition serve (log : list http_call) (c : http_call) : string + response :=
  if String.eqb (c_url c) OPENAPI_URL
  then inr (Response 200 "OK" (c_url c) (Some "application/json")
                     petstore_text)
  else inr (Response 200 "OK" (c_url c) (Some "application/json") "{}").

Definition runtime : Runtime :=
  {| json_loads := loads;
     json_dumps_indent2 := dumps;
     str_container := dumps;
     send := serve |}.

(** A script in the manner of [swagger-ui-init.js], around an embedded
    document. *)
Definition embedded_object : json :=
  JObj [("paths", JObj [("/pet", JObj [("get", JObj [])])])].
Definition embedded_text : string := dumps embedded_object.
Definition script_pre : string := "var options = { " ++ dq.
Definition script_mid : string := dq ++ ": ".
Definition script_post : string :=
  ", " ++ dq ++ "customOptions" ++ dq ++ ": {} };".

(** An object one of whose strings holds a closing brace. *)
Definition brace_object : json := JObj [("a", JStr "}")].
Definition brace_text : string := dumps brace_object.

(** A server that answers every call with one canned response. *)
Definition canned (status : Z) (content_type body : string) : Runtime :=
  {| json_loads := loads;
     json_dumps_indent2 := dumps;
     str_container := dumps;
     send := fun _ c =>
               inr (Response status "" (c_url c) (Some content_type) body) |}.

End Demo.

(* ------------------------------------------------------------------ *)
(** ** Notions of the specification *)

(** The cleaned path of the identifier sanitizer: steps 1, 2, 3 and 5. *)
Definition cleaned_path (endpoint : string) : string :=
  Str.filter allowed_char
    (Str.replace_char "}" ""
       (Str.replace_char "{" ""
          (Str.replace_char "/" "_" (Str.strip "/" endpoint)))).

(** The pattern [^[A-Za-z0-9_-]{1,64}$] of a tool identifier. *)
Definition tool_name_alphabet : string :=
  "ABCDEFGHIJKLMNOPQRSTUVWXYZabcdefghijklmnopqrstuvwxyz0123456789_-".

Definition in_alphabet (alphabet : string) (c : ascii) : bool :=
  existsb (Ascii.eqb c) (list_ascii_of_string alphabet).

Definition matches_tool_name_pattern (s : string) : bool :=
  Str.forallb (in_alphabet tool_name_alphabet) s
  && (1 <=? String.length s)%nat && (String.length s <=? 64)%nat.

Definition is_hex_string (s : string) : bool :=
  Str.forallb (in_alphabet "0123456789abcdef") s.

(** [sub] begins at index [i] of [s]. *)
Definition occurs_at (sub s : string) (i : nat) : Prop :=
  prefix sub (Str.drop i s) = true.

(** [k] is the first index from [from] on at which [sub] begins. *)
Definition first_from (sub s : string) (from k : nat) : Prop :=
  (from <= k)%nat /\ occurs_at sub s k
  /\ forall i, (from <= i < k)%nat -> ~ occurs_at sub s i.

Definition none_from (sub s : string) (from : nat) : Prop :=
  forall i, (from <= i)%nat -> ~ occurs_at sub s i.

(** Opening braces minus closing braces. *)
Fixpoint brace_depth (s : string) : Z :=
  match s with
  | EmptyString => 0
  | String c r =>
      (if Ascii.eqb c "{" then 1 else if Ascii.eqb c "}" then -1 else 0)
      + brace_depth r
  end.

(** The depth returns to zero for the first time after [n] characters. *)
Definition closes_at (s : string) (n : nat) : Prop :=
  (1 <= n <= String.length s)%nat
  /\ brace_depth (Str.take n s) = 0
  /\ forall m, (1 <= m < n)%nat -> brace_depth (Str.take m s) <> 0.

Definition never_closes (s : string) : Prop :=
  forall n, (1 <= n <= String.length s)%nat ->
            brace_depth (Str.take n s) <> 0.

(** The failures of the embedded-JSON extractor, and the exception that
    carries each of them in the code. *)
Inductive extract_error : Type :=
| KeyNotFound
| MalformedEmbedding
| UnbalancedBraces
| EmbeddedJsonParseError (msg : string).

Definition extract_error_exn (e : extract_error) : exn :=
  match e with
  | KeyNotFound => ValueError "No 'swaggerDoc' found in JS content"
  | MalformedEmbedding => ValueError "Opening brace for swaggerDoc not found"
  | UnbalancedBraces => ValueError "Unmatched braces while parsing swaggerDoc"
  | EmbeddedJsonParseError msg =>
      ValueError ("Failed to parse swaggerDoc JSON: " ++ msg)
  end.

Definition extract_result (o : extract_error + json) : result json :=
  match o with
  | inl e => Raise (extract_error_exn e)
  | inr v => Ok v
  end.

(** The outcome section 4.2 prescribes for a script text. *)
Inductive extract_outcome {R : Runtime} (js : string)
  : extract_error + json -> Prop :=
| outcome_key_not_found :
    none_from "swaggerDoc" js 0 ->
    extract_outcome js (inl KeyNotFound)
| outcome_malformed k :
    first_from "swaggerDoc" js 0 k ->
    none_from "{" js k ->
    extract_outcome js (inl MalformedEmbedding)
| outcome_unbalanced k b :
    first_from "swaggerDoc" js 0 k ->
    first_from "{" js k b ->
    never_closes (Str.drop b js) ->
    extract_outcome js (inl UnbalancedBraces)
| outcome_parse_error k b n msg :
    first_from "swaggerDoc" js 0 k ->
    first_from "{" js k b ->
    closes_at (Str.drop b js) n ->
    json_loads (Str.take n (Str.drop b js)) = inl msg ->
    extract_outcome js (inl (EmbeddedJsonParseError msg))
| outcome_value k b n v :
    first_from "swaggerDoc" js 0 k ->
    first_from "{" js k b ->
    closes_at (Str.drop b js) n ->
    json_loads (Str.take n (Str.drop b js)) = inr v ->
    extract_outcome js (inr v).

(** Decision procedures for the two notions above, on concrete texts. *)
Fixpoint occurs_beforeb (sub s : string) (n : nat) {struct n} : bool :=
  match n with
  | O => false
  | S n' =>
      prefix sub s
      || match s with
         | EmptyString => false
         | String _ r => occurs_beforeb sub r n'
         end
  end.

Definition closes_atb (s : string) (n : nat) : bool :=
  (1 <=? n)%nat && (n <=? String.length s)%nat
  && (brace_depth (Str.take n s) =? 0)
  && List.forallb (fun m => negb (brace_depth (Str.take m s) =? 0))
                  (seq 1 (n - 1)).

Definition not_open_brace (c : ascii) : bool := negb (Ascii.eqb c "{").

(** A parameter specification as the specification's data model has it:
    an object with a string [name]. *)
Definition param_name (p : json) : option string :=
  match p with
  | JObj d => match Py.lookup "name" d with
              | Some (JStr n) => Some n
              | _ => None
              end
  | _ => None
  end.

Definition is_object (v : json) : bool :=
  match v with JObj _ => true | _ => false end.

Definition field (k : string) (p : json) : option json :=
  match p with JObj d => Py.lookup k d | _ => None end.

(** The type hint can be read: [type] is given, or [schema] is missing,
    empty, or an object. *)
Definition type_hint_readable (p : json) : bool :=
  match field "type" p with
  | Some t => Py.truthy t
  | None => false
  end
  || match field "schema" p with
     | Some sch => negb (Py.truthy sch) || is_object sch
     | None => true
     end.

Definition resolvable (p : json) : bool :=
  match param_name p with
  | Some _ => type_hint_readable p
  | None => false
  end.

(** The argument a parameter resolves to, and whether it is required. *)
Definition arg_name (p : json) : string :=
  match param_name p with
  | Some n => sanitize_name n
  | None => ""
  end.

Definition is_required (p : json) : bool :=
  match field "required" p with
  | Some r => Py.truthy r
  | None => false
  end.

(** The optional arguments of a parameter list, each with the absent
    sentinel [None] as its default. *)
Definition resolved_defaults (ps : list json) (defaults : dict) : dict :=
  fold_left
    (fun d p => if is_required p then d else Py.setitem (arg_name p) JNull d)
    ps defaults.

Definition operation_parameters (o : dict) : json :=
  match Py.lookup "parameters" o with Some v => v | None => JArr [] end.

Definition operation_request_body (o : dict) : json :=
  match Py.lookup "requestBody" o with Some v => v | None => JNull end.

(** A request body is present and declares [application/json] content. *)
Definition declares_json (rb : json) : bool :=
  match rb with
  | JObj d => match Py.lookup "content" d with
              | Some (JObj c) => Py.has_key "application/json" c
              | _ => false
              end
  | _ => false
  end.

(** A request body as the data model has it: absent (or empty), or an
    object whose [content], when given, is an object keyed by content
    type. *)
Definition body_well_formed (rb : json) : bool :=
  negb (Py.truthy rb)
  || match rb with
     | JObj d => match Py.lookup "content" d with
                 | Some c => is_object c
                 | None => true
                 end
     | _ => false
     end.

Definition named (p : json) : bool :=
  match param_name p with Some _ => true | None => false end.

(** The declared location of a parameter, [query] when it declares
    none. *)
Definition location (p : json) : json :=
  match field "in" p with Some l => l | None => JStr "query" end.

(** The value the caller gave for an argument is the absent sentinel:
    the keyword is missing or is [None]. *)
Definition absent (kwargs : dict) (arg : string) : Prop :=
  kwargs_get kwargs arg = JNull.

(** The verb a method string selects in the transport. *)
Definition verb_of (method : string) : option verb :=
  let m := Str.lower method in
  if String.eqb m "get" then Some GET
  else if String.eqb m "post" then Some POST
  else if String.eqb m "put" then Some PUT
  else if String.eqb m "delete" then Some DELETE
  else None.

Definition default_headers : dict :=
  [("Content-Type", JStr "application/json");
   ("Accept", JStr "application/json")].

(** The network calls one request of the transport makes: one call for a
    known verb, with the payload on [post] and [put] only, and none for
    any other method. *)
Definition transport_calls (rq : api_request) : list http_call :=
  match verb_of (rq_method rq) with
  | Some v =>
      [Call v (BASE_URL ++ rq_path rq)
            (match v with POST | PUT => rq_data rq | _ => JNull end)
            (Some (rq_params rq))
            (Some (match rq_headers rq with
                   | [] => default_headers
                   | hs => Py.update default_headers hs
                   end))]
  | None => []
  end.

(** Every name in a mapping of the handler was given a value. *)
Definition values_present (kwargs : dict) (m : dict) : Prop :=
  forall k, In k (Py.keys m) ->
            Py.is_none (kwargs_get kwargs (sanitize_name k)) = false.

(** The parameters of the scenario of section 8: a required path
    parameter [id] and an optional query parameter [limit]. *)
Definition id_param : json :=
  JObj [("name", JStr "id"); ("in", JStr "path"); ("required", JBool true)].

Definition limit_param : json :=
  JObj [("name", JStr "limit"); ("in", JStr "query");
        ("required", JBool false)].

(** The single call of the spec acquirer, and its two errors. *)
Definition spec_call : http_call := Call GET OPENAPI_URL JNull None None.

Definition SpecFetchError (cause : exn) : exn :=
  RuntimeError ("Failed to fetch OpenAPI spec: " ++ exn_str cause) cause.

Definition UnsupportedSpecFormat (observed : string) : exn :=
  ValueError ("Unsupported content-type: " ++ observed).

(** The statuses [raise_for_status] refuses: 4xx and 5xx. *)
Definition is_error_status (st : Z) : bool := (400 <=? st) && (st <? 600).

(** The declared content type, in lower case; empty when there is none. *)
Definition declared_type (r : response) : string :=
  Str.lower (match content_type_header r with Some h => h | None => "" end).

(** The result of the spec acquirer for an answer of the network. *)
Inductive acquired {R : Runtime} : string + response -> result json -> Prop :=
| acquired_no_answer msg :
    acquired (inl msg) (Raise (SpecFetchError (RequestException msg)))
| acquired_error_status resp cause :
    is_error_status (status_code resp) = true ->
    is_RequestException cause = true ->
    acquired (inr resp) (Raise (SpecFetchError cause))
| acquired_javascript resp :
    is_error_status (status_code resp) = false ->
    Str.contains "application/javascript" (declared_type resp) = true ->
    acquired (inr resp) (extract_swagger_doc_from_js (text resp))
| acquired_json resp v :
    is_error_status (status_code resp) = false ->
    Str.contains "application/javascript" (declared_type resp) = false ->
    Str.contains "application/json" (declared_type resp) = true ->
    json_loads (text resp) = inr v ->
    acquired (inr resp) (Ok v)
| acquired_bad_json resp msg :
    is_error_status (status_code resp) = false ->
    Str.contains "application/javascript" (declared_type resp) = false ->
    Str.contains "application/json" (declared_type resp) = true ->
    json_loads (text resp) = inl msg ->
    acquired (inr resp)
             (Raise (SpecFetchError (RequestsJSONDecodeError msg)))
| acquired_unsupported resp :
    is_error_status (status_code resp) = false ->
    Str.contains "application/javascript" (declared_type resp) = false ->
    Str.contains "application/json" (declared_type resp) = false ->
    acquired (inr resp) (Raise (UnsupportedSpecFormat (declared_type resp))).

(** The document of the end-to-end scenario of section 8, and the one
    registration it is to produce. *)
Definition petstore_doc : json :=
  JObj [("paths",
         JObj [("/pet/{petId}",
                JObj [("get",
                       JObj [("summary", JStr "Find pet");
                             ("parameters",
                              JArr [JObj [("name", JStr "petId");
                                          ("in", JStr "path");
                                          ("required", JBool true)]])])])])].

Definition petstore_registration : registration :=
  Registration "get_pet_petId" (JStr "Find pet")
    (Tool "/pet/{petId}" "get"
          (JArr [JObj [("name", JStr "petId"); ("in", JStr "path");
                       ("required", JBool true)]])
          JNull
          [Inspect.Param "petId" Inspect.POSITIONAL_OR_KEYWORD None]
          (JStr "Find pet")).

(** The three mappings of the handler, and one round of its loop on a
    named parameter. *)
Inductive place : Type := InPath | InQuery | InHeader.

Definition place_name (w : place) : string :=
  match w with
  | InPath => "path"
  | InQuery => "query"
  | InHeader => "header"
  end.

Definition mapping_of (w : place) (acc : dict * dict * dict) : dict :=
  let '(path_params, query_params, headers) := acc in
  match w with
  | InPath => path_params
  | InQuery => query_params
  | InHeader => headers
  end.

(** The parameter is sent in the mapping [w]: it declares that location
    and its argument is not the absent sentinel. *)
Definition sent_in (kwargs : dict) (w : place) (p : json) : bool :=
  Py.eq_str (place_name w) (location p)
  && negb (Py.is_none (kwargs_get kwargs (arg_name p))).

Definition collect_step (kwargs : dict) (acc : dict * dict * dict)
    (p : json) : dict * dict * dict :=
  let '(path_params, query_params, headers) := acc in
  match param_name p with
  | Some raw_name =>
      let value := kwargs_get kwargs (sanitize_name raw_name) in
      if Py.is_none value then acc
      else if Py.eq_str "path" (location p)
      then (Py.setitem raw_name value path_params, query_params, headers)
      else if Py.eq_str "query" (location p)
      then (path_params, Py.setitem raw_name value query_params, headers)
      else if Py.eq_str "header" (location p)
      then (path_params, query_params, Py.setitem raw_name value headers)
      else acc
  | None => acc
  end.

(** An argument is optional when some parameter of that name is not
    required. *)
Definition optional_by_name (ps : list json) (arg : string) : bool :=
  existsb (fun p => String.eqb (arg_name p) arg && negb (is_required p)) ps.






(** What the transport of the engine returns for the answer of the
    network to its call: the body parsed as JSON, the raw body when it
    does not parse, or an error object when the call failed. *)
Definition transport_result {R : Runtime} (answer : string + response)
  : json :=
  match answer with
  | inl msg => JObj [("error", JStr ("API request failed: " ++ msg))]
  | inr resp =>
      match json_loads (text resp) with
      | inr v => v
      | inl _ => JObj [("raw_response", JStr (text resp))]
      end
  end.

Definition error_text (err details : string) : string :=
  "Error: " ++ err ++ newline ++ newline ++ "Details: " ++ details.

(** A runtime whose network refuses every call. *)
Definition offline_runtime : Runtime :=
  {| json_loads := Demo.loads;
     json_dumps_indent2 := Demo.dumps;
     str_container := Demo.dumps;
     send := fun _ _ => inl "Connection refused" |}.

(* ------------------------------------------------------------------ *)
(** ** petstore_server.py *)

Module Petstore.

(** [str.isspace] on ASCII, [tag.strip()] and [tags.split(",")]. *)
Definition is_space (c : ascii) : bool :=
  let n := Str.code c in
  ((9 <=? n) && (n <=? 13)) || ((28 <=? n) && (n <=? 32)).

Fixpoint lstrip_ws (s : string) : string :=
  match s with
  | String x r => if is_space x then lstrip_ws r else s
  | EmptyString => EmptyString
  end.

Definition strip_ws (s : string) : string :=
  Str.rev (lstrip_ws (Str.rev (lstrip_ws s))).

Fixpoint split (c : ascii) (s : string) : list string :=
  match s with
  | EmptyString => [EmptyString]
  | String x r =>
      if Ascii.eqb x c then EmptyString :: split c r
      else match split c r with
           | h :: t => String x h :: t
           | [] => [String x EmptyString]
           end
  end.

Section Server.

Context {R : Runtime}.

Definition BASE_URL : string := "https://petstore.swagger.io/v2".

Definition make_api_request (method endpoint : string) (data : json)
    (params : option dict) : IO json :=
  let url := BASE_URL ++ "/" ++ endpoint in
  let headers :=
    [("Content-Type", JStr "application/json");
     ("Accept", JStr "application/json")] in
  let after (call : http_call) : IO json :=
    (response <- request call ;;
     if 400 <=? status_code response
     then io_ret (JObj [("error",
                         JStr ("API returned status code "
                               ++ PyStr.decimal (status_code response)));
                        ("details", JStr (text response))])
     else
       match response_json response with
       | Ok v => io_ret v
       | Raise e =>
           if is_ValueError e
           then io_ret (JObj [("raw_response", JStr (text response))])
           else io_raise e
       end)%io in
  let m := Str.lower method in
  io_try
    (if String.eqb m "get"
     then after (Call GET url JNull params (Some headers))
     else if String.eqb m "post"
     then after (Call POST url data None (Some headers))
     else if String.eqb m "put"
     then after (Call PUT url data None (Some headers))
     else if String.eqb m "delete"
     then after (Call DELETE url JNull None (Some headers))
     else io_ret (JObj [("error", JStr "Invalid HTTP method")]))
    is_RequestException
    (fun e =>
       io_ret (JObj [("error",
                      JStr ("API request failed: " ++ exn_str e))])).

(** One line of the summary of a list of pets. *)
Definition pet_line (pet : json) : result string :=
  (name <- Py.get pet "name" (JStr "Unnamed") ;;
   id <- Py.get pet "id" (JStr "Unknown") ;;
   status <- Py.get pet "status" (JStr "Unknown status") ;;
   Ok ("- " ++ py_str name ++ " (ID: " ++ py_str id ++ "): "
       ++ py_str status ++ newline))%result.

Definition format_api_response (response : json) (query_context : string)
  : result string :=
  let dumped := Ok (json_dumps_indent2 response) in
  match response with
  | JObj d =>
      match Py.lookup "error" d with
      | Some err =>
          Ok ("Error: " ++ py_str err ++ newline ++ newline ++ "Details: "
              ++ py_str (match Py.lookup "details" d with
                         | Some x => x
                         | None => JStr "No additional details"
                         end))
      | None => dumped
      end
  | JArr l =>
      let count := Z.of_nat (List.length l) in
      if count =? 0 then Ok "No items found."
      else if prefix "find pet" (Str.lower query_context)
      then
        (let summary :=
           "Found " ++ PyStr.decimal count ++ " pet"
           ++ (if 1 <? count then "s" else "") ++ ":" ++ newline ++ newline in
         summary <-
           for_each (fun summary pet =>
                       line <- pet_line pet ;; Ok (summary ++ line))
                    (firstn 5 l) summary ;;
         Ok (if 5 <? count
             then summary ++ newline ++ "... and "
                  ++ PyStr.decimal (count - 5) ++ " more pets"
             else summary))%result
      else dumped
  | _ => dumped
  end.

(** A tool: the request, then its result formatted. *)
Definition tool_call (method endpoint : string) (data : json)
    (params : option dict) (query_context : string) : IO string :=
  (result <- make_api_request method endpoint data params ;;
   io_lift (format_api_response result query_context))%io.

Definition find_pets_by_status (status : string) : IO string :=
  tool_call "get" "pet/findByStatus" JNull
            (Some [("status", JStr status)]) "Find pets by their status".

Definition get_pet_by_id (pet_id : Z) : IO string :=
  tool_call "get" ("pet/" ++ PyStr.decimal pet_id) JNull None
            "Find a pet by its ID".

Definition find_pets_by_tags (tags : string) : IO string :=
  let tag_list := List.map strip_ws (split "," tags) in
  tool_call "get" "pet/findByTags" JNull
            (Some [("tags", JArr (List.map JStr tag_list))])
            "Find pets by tags".

Definition get_inventory : IO string :=
  tool_call "get" "store/inventory" JNull None
            "Returns pet inventory by status".

Definition place_order (pet_id quantity : Z) (status : string)
    (complete : bool) : IO string :=
  let order_data :=
    JObj [("petId", JInt pet_id); ("quantity", JInt quantity);
          ("status", JStr status); ("complete", JBool complete)] in
  tool_call "post" "store/order" order_data None
            "Place a new order in the store".

Definition get_order_by_id (order_id : Z) : IO string :=
  tool_call "get" ("store/order/" ++ PyStr.decimal order_id) JNull None
            "Find purchase order by ID".

Definition create_user (username first_name last_name email password
                        phone : string) (user_status : Z) : IO string :=
  let user_data :=
    JObj [("username", JStr username); ("firstName", JStr first_name);
          ("lastName", JStr last_name); ("email", JStr email);
          ("password", JStr password); ("phone", JStr phone);
          ("userStatus", JInt user_status)] in
  tool_call "post" "user" user_data None "Create a new user".

Definition get_user_by_username (username : string) : IO string :=
  tool_call "get" ("user/" ++ username) JNull None "Get user by username".

Definition login_user (username password : string) : IO string :=
  tool_call "get" "user/login" JNull
            (Some [("username", JStr username);
                   ("password", JStr password)])
            "Login a user".

End Server.

End Petstore.

(** The call the transport of petstore_server.py makes for a verb: the
    query parameters go with [get] only, the payload with [post] and [put]
    only. *)
Definition petstore_call (v : verb) (endpoint : string) (data : json)
    (params : option dict) : http_call :=
  Call v (Petstore.BASE_URL ++ "/" ++ endpoint)
       (match v with POST | PUT => data | _ => JNull end)
       (match v with GET => params | _ => None end)
       (Some default_headers).

(** What that transport returns for the answer of the network. *)
Definition petstore_result {R : Runtime} (answer : string + response)
  : json :=
  match answer with
  | inl msg => JObj [("error", JStr ("API request failed: " ++ msg))]
  | inr resp =>
      if 400 <=? status_code resp
      then JObj [("error",
                  JStr ("API returned status code "
                        ++ PyStr.decimal (status_code resp)));
                 ("details", JStr (text resp))]
      else match json_loads (text resp) with
           | inr v => v
           | inl _ => JObj [("raw_response", JStr (text resp))]
           end
  end.

(** A result the summary of pets cannot format: a list one of whose first
    five items is no object. *)
Definition unformattable (result : json) : bool :=
  match result with
  | JArr l => negb (List.forallb is_object (firstn 5 l))
  | _ => false
  end.


Definition starts_clean (t : string) : bool :=
  match t with
  | EmptyString => true
  | String x _ => negb (Petstore.is_space x)
  end.



(* ------------------------------------------------------------------ *)
(** ** petstore_server_dynamic.py

    The earlier server registers each tool under the name of line 89,
    [f"{method}_{endpoint.strip('/').replace('/', '_')
    .replace('{','').replace('}','')}"], as it is. *)

Module Dynamic.

Definition tool_name (method endpoint : string) : string :=
  method ++ "_"
  ++ Str.replace_char "}" ""
       (Str.replace_char "{" ""
          (Str.replace_char "/" "_" (Str.strip "/" endpoint))).

End Dynamic.


(* ================================================================== *)
(** * Properties *)

Example md5_empty : MD5.hexdigest "" = "d41d8cd98f00b204e9800998ecf8427e".
Proof. vm_compute. reflexivity. Qed.

Example md5_abc : MD5.hexdigest "abc" = "900150983cd24fb0d6963f7d28e17f72".
Proof. vm_compute. reflexivity. Qed.

Example md5_two_blocks :
  MD5.hexdigest
    "aaaaaaaaaaaaaaaaaaaaaaaaaaaaaaaaaaaaaaaaaaaaaaaaaaaaaaaaaaaaaaaaa"
  = "c743a45e0d2e6a95cb859adae0248435".
Proof. vm_compute. reflexivity. Qed.


(* ------------------------------------------------------------------ *)
(** ** Text lemmas *)

Lemma length_app (a b : string) :
  String.length (a ++ b) = (String.length a + String.length b)%nat.
Proof. induction a as [|c a IH]; simpl; [reflexivity | now rewrite IH]. Qed.

Lemma app_assoc_s (a b c : string) : (a ++ b) ++ c = a ++ b ++ c.
Proof. induction a as [|x a IH]; simpl; [reflexivity | now rewrite IH]. Qed.

Lemma app_empty_r (a : string) : a ++ "" = a.
Proof. induction a as [|x a IH]; simpl; [reflexivity | now rewrite IH]. Qed.

Lemma filter_app f (a b : string) :
  Str.filter f (a ++ b) = Str.filter f a ++ Str.filter f b.
Proof.
  induction a as [|c a IH]; simpl; [reflexivity|].
  destruct (f c); simpl; now rewrite IH.
Qed.

Lemma forallb_filter f (s : string) : Str.forallb f (Str.filter f s) = true.
Proof.
  induction s as [|c s IH]; simpl; [reflexivity|].
  destruct (f c) eqn:E; simpl; [now rewrite E | exact IH].
Qed.

Lemma forallb_app f (a b : string) :
  Str.forallb f (a ++ b) = Str.forallb f a && Str.forallb f b.
Proof.
  induction a as [|c a IH]; simpl; [reflexivity|].
  now rewrite IH, andb_assoc.
Qed.

Lemma forallb_take f n (s : string) :
  Str.forallb f s = true -> Str.forallb f (Str.take n s) = true.
Proof.
  revert s; induction n as [|n IH]; intros [|c s]; simpl; auto.
  intros H; apply andb_true_iff in H as [Hc Hs].
  now rewrite Hc, IH.
Qed.

Lemma forallb_ext f g (s : string) :
  (forall c, f c = g c) -> Str.forallb f s = Str.forallb g s.
Proof.
  intros E; induction s as [|c s IH]; simpl; [reflexivity|].
  now rewrite E, IH.
Qed.

Lemma length_take n (s : string) :
  String.length (Str.take n s) = Nat.min n (String.length s).
Proof.
  revert s; induction n as [|n IH]; intros [|c s]; simpl; auto.
Qed.

Lemma take_all n (s : string) :
  (String.length s <= n)%nat -> Str.take n s = s.
Proof.
  revert s; induction n as [|n IH]; intros [|c s]; simpl; intros H;
    try reflexivity; try lia.
  now rewrite IH by lia.
Qed.

Lemma take_drop n (s : string) : Str.take n s ++ Str.drop n s = s.
Proof.
  revert s; induction n as [|n IH]; intros [|c s]; simpl; try reflexivity.
  now rewrite IH.
Qed.

Lemma length_drop n (s : string) :
  String.length (Str.drop n s) = (String.length s - n)%nat.
Proof.
  revert s; induction n as [|n IH]; intros [|c s]; simpl; auto.
Qed.

Lemma drop_app_length (a b : string) : Str.drop (String.length a) (a ++ b) = b.
Proof. induction a as [|c a IH]; simpl; [now destruct b | exact IH]. Qed.

Lemma take_app_length (a b : string) : Str.take (String.length a) (a ++ b) = a.
Proof.
  induction a as [|c a IH]; simpl; [now destruct b | now rewrite IH].
Qed.

Lemma drop_drop n m (s : string) :
  Str.drop n (Str.drop m s) = Str.drop (m + n) s.
Proof.
  revert s; induction m as [|m IH]; intros s; simpl.
  - now destruct n, s.
  - destruct s as [|c s]; simpl; [now destruct n | apply IH].
Qed.

(* ------------------------------------------------------------------ *)
(** ** The identifier sanitizer *)

Lemma allowed_char_alphabet (c : ascii) :
  allowed_char c = in_alphabet tool_name_alphabet c.
Proof.
  destruct c as [[] [] [] [] [] [] [] []]; vm_compute; reflexivity.
Qed.

Lemma hex_digit_is_hex (n : Z) :
  in_alphabet "0123456789abcdef" (MD5.hex_digit n) = true.
Proof.
  unfold MD5.hex_digit.
  pose proof (Z.mod_pos_bound n 16 eq_refl) as B.
  assert (H : (Z.to_nat (n mod 16) < 16)%nat) by lia.
  destruct (Z.to_nat (n mod 16))
    as [|[|[|[|[|[|[|[|[|[|[|[|[|[|[|[|k]]]]]]]]]]]]]]]];
    try reflexivity; lia.
Qed.

Lemma hex_is_hex (bs : list Z) : is_hex_string (MD5.hex bs) = true.
Proof.
  unfold is_hex_string.
  induction bs as [|b bs IH]; simpl; [reflexivity|].
  now rewrite !hex_digit_is_hex, IH.
Qed.

Lemma length_hex (bs : list Z) :
  String.length (MD5.hex bs) = (2 * List.length bs)%nat.
Proof. induction bs as [|b bs IH]; simpl; [reflexivity | rewrite IH; lia]. Qed.

Lemma length_le_bytes n x : List.length (MD5.le_bytes n x) = n.
Proof. unfold MD5.le_bytes. now rewrite List.length_map, List.length_seq. Qed.

Lemma length_digest (bs : list Z) : List.length (MD5.digest bs) = 16%nat.
Proof.
  unfold MD5.digest. cbv zeta.
  now rewrite !List.length_app, !length_le_bytes.
Qed.

Lemma length_hexdigest (s : string) : String.length (MD5.hexdigest s) = 32%nat.
Proof. unfold MD5.hexdigest. now rewrite length_hex, length_digest. Qed.

Lemma hexdigest_is_hex (s : string) : is_hex_string (MD5.hexdigest s) = true.
Proof. apply hex_is_hex. Qed.

Lemma hex_in_tool_alphabet (c : ascii) :
  in_alphabet "0123456789abcdef" c = true ->
  in_alphabet tool_name_alphabet c = true.
Proof.
  destruct c as [[] [] [] [] [] [] [] []]; vm_compute; congruence.
Qed.

Lemma forallb_impl (f g : ascii -> bool) (s : string) :
  (forall c, f c = true -> g c = true) ->
  Str.forallb f s = true -> Str.forallb g s = true.
Proof.
  intros I; induction s as [|c s IH]; simpl; [reflexivity|].
  intros H; apply andb_true_iff in H as [Hc Hs].
  now rewrite (I _ Hc), IH.
Qed.

Lemma lower_char_allowed (c : ascii) :
  Str.is_lower c = true -> allowed_char c = true /\ Str.lower_char c = c.
Proof.
  destruct c as [[] [] [] [] [] [] [] []]; vm_compute; intros H;
    try discriminate; split; reflexivity.
Qed.

Lemma filter_lower_method (method : string) :
  Str.forallb Str.is_lower method = true ->
  Str.filter allowed_char method = Str.lower method.
Proof.
  induction method as [|c r IH]; cbn; [reflexivity|].
  intros H. apply andb_true_iff in H as [Hc Hr].
  destruct (lower_char_allowed _ Hc) as [Ha Hl].
  rewrite Ha, Hl. f_equal. now apply IH.
Qed.

Lemma sanitize_tool_name_cleaned (method endpoint : string) :
  Str.filter allowed_char
    (method ++ "_"
     ++ Str.replace_char "}" ""
          (Str.replace_char "{" ""
             (Str.replace_char "/" "_" (Str.strip "/" endpoint))))
  = Str.filter allowed_char method ++ "_" ++ cleaned_path endpoint.
Proof. now rewrite !filter_app. Qed.

(** C2 (as the code has it).  The identifier always matches
    [^[A-Za-z0-9_-]{1,64}$]; it is the method as given, with the characters
    outside the alphabet removed and without any change of case, then [_],
    then the cleaned path; and when that cleaned string is longer than 64
    characters the identifier is its first 55 characters, [_], and the first
    8 characters of the MD5 hex digest of the whole cleaned string, which
    are hexadecimal digits.  For a method made of lower-case letters, as the
    verbs of the data model are, the cleaned method is the lower-case
    method.  Being a function, the sanitizer is deterministic. *)
Theorem sanitize_tool_name_spec (method endpoint : string) :
  let cleaned :=
    Str.filter allowed_char method ++ "_" ++ cleaned_path endpoint in
  let suffix := Str.take 8 (MD5.hexdigest cleaned) in
  matches_tool_name_pattern (sanitize_tool_name method endpoint) = true
  /\ sanitize_tool_name method endpoint
     = (if (String.length cleaned <=? 64)%nat then cleaned
        else Str.take 55 cleaned ++ "_" ++ suffix)
  /\ String.length suffix = 8%nat
  /\ is_hex_string suffix = true
  /\ (Str.forallb Str.is_lower method = true ->
      Str.filter allowed_char method = Str.lower method).
Proof.
  cbv zeta.
  set (cleaned :=
         Str.filter allowed_char method ++ "_" ++ cleaned_path endpoint).
  assert (Hlen8 : String.length (Str.take 8 (MD5.hexdigest cleaned)) = 8%nat)
    by (rewrite length_take, length_hexdigest; reflexivity).
  assert (Hhex : is_hex_string (Str.take 8 (MD5.hexdigest cleaned)) = true)
    by (apply forallb_take, hexdigest_is_hex).
  assert (Hall : Str.forallb (in_alphabet tool_name_alphabet) cleaned = true).
  { rewrite <- (forallb_ext _ _ _ allowed_char_alphabet).
    unfold cleaned, cleaned_path.
    rewrite !forallb_app, !forallb_filter. reflexivity. }
  assert (Hpos : (1 <= String.length cleaned)%nat).
  { unfold cleaned. rewrite !length_app. simpl. lia. }
  assert (Heq : sanitize_tool_name method endpoint
                = if (String.length cleaned <=? 64)%nat then cleaned
                  else Str.take 55 cleaned ++ "_"
                       ++ Str.take 8 (MD5.hexdigest cleaned)).
  { unfold sanitize_tool_name. cbv zeta.
    rewrite sanitize_tool_name_cleaned. fold cleaned.
    destruct (Nat.leb_spec (String.length cleaned) 64) as [L|L].
    - destruct (Z.ltb_spec 64 (Z.of_nat (String.length cleaned))); [lia|].
      reflexivity.
    - destruct (Z.ltb_spec 64 (Z.of_nat (String.length cleaned))); [|lia].
      reflexivity. }
  split; [|split; [exact Heq|split; [exact Hlen8|split; [exact Hhex|]]]];
    [|apply filter_lower_method].
  rewrite Heq. unfold matches_tool_name_pattern.
  destruct (Nat.leb_spec (String.length cleaned) 64) as [L|L].
  - rewrite Hall, (proj2 (Nat.leb_le _ _) Hpos), (proj2 (Nat.leb_le _ _) L).
    reflexivity.
  - rewrite !forallb_app, !length_app, Hlen8, length_take.
    rewrite (forallb_take _ 55 _ Hall).
    rewrite (forallb_impl _ _ _ hex_in_tool_alphabet Hhex).
    rewrite Nat.min_l by lia. reflexivity.
Qed.

Example sanitize_tool_name_short :
  sanitize_tool_name "get" "/pet/{petId}/uploadImage"
  = "get_pet_petId_uploadImage".
Proof. vm_compute. reflexivity. Qed.

Example sanitize_tool_name_long :
  sanitize_tool_name "get"
    ("/pet/{petId}/aaaaaaaaaaaaaaaaaaaaaaaaaaaaaaaaaaaaaaaaaaaaaaaaaaaaaaaaaa"
     ++ "aaaaaaaaaaaaaaaaaaaaaaaaaaaaaaaaaaaaaaaaa")
  = "get_pet_petId_aaaaaaaaaaaaaaaaaaaaaaaaaaaaaaaaaaaaaaaaa_26444dbc".
Proof. vm_compute. reflexivity. Qed.

(** C2, counterexample: an upper-case method is not lowered. *)
Lemma sanitize_tool_name_keeps_case :
  sanitize_tool_name "GET" "/pet/{petId}" = "GET_pet_petId"
  /\ sanitize_tool_name "GET" "/pet/{petId}"
     <> Str.lower "GET" ++ "_" ++ cleaned_path "/pet/{petId}".
Proof. split; [vm_compute; reflexivity | vm_compute; discriminate]. Qed.

(* ------------------------------------------------------------------ *)
(** ** [str.find] *)

Lemma prefix_empty_false (sub : string) :
  sub <> "" -> prefix sub "" = false.
Proof. destruct sub; [congruence | reflexivity]. Qed.

Lemma drop_empty n : Str.drop n "" = "".
Proof. now destruct n. Qed.

Lemma drop_cons n c (s : string) : Str.drop (S n) (String c s) = Str.drop n s.
Proof. reflexivity. Qed.

(** What [find_from] returns: [-1] when [sub] begins nowhere in [s], and
    the offset of the first place it begins at otherwise. *)
Lemma find_from_spec (sub : string) (Hsub : sub <> "") (s : string) :
  forall off,
    (Str.find_from sub s off = -1
        /\ forall i, prefix sub (Str.drop i s) = false)
    \/ (exists k, Str.find_from sub s off = off + Z.of_nat k
        /\ prefix sub (Str.drop k s) = true
        /\ forall i, (i < k)%nat -> prefix sub (Str.drop i s) = false).
Proof.
  induction s as [|c s IH]; intros off.
  - left. split.
    + cbn [Str.find_from]. now rewrite prefix_empty_false.
    + intros i. rewrite drop_empty. now apply prefix_empty_false.
  - cbn [Str.find_from].
    destruct (prefix sub (String c s)) eqn:P.
    + right. exists 0%nat. split; [lia|]. split; [exact P|]. intros i Hi; lia.
    + destruct (IH (off + 1)) as [[E N]|[k [E [Pk L]]]].
      * left. split; [exact E|]. intros [|i]; [exact P | apply N].
      * right. exists (S k). split; [rewrite E; lia|]. split; [exact Pk|].
        intros [|i] Hi; [exact P | apply L; lia].
Qed.

Lemma find_at_spec (sub : string) (Hsub : sub <> "") (s : string) (from : nat) :
  (Str.find_at sub s (Z.of_nat from) = -1 /\ none_from sub s from)
  \/ (exists k, Str.find_at sub s (Z.of_nat from) = Z.of_nat k
                /\ first_from sub s from k).
Proof.
  unfold Str.find_at. rewrite Nat2Z.id.
  destruct (find_from_spec Hsub (Str.drop from s) (Z.of_nat from))
    as [[E N]|[k [E [Pk L]]]].
  - left. split; [exact E|]. intros i Hi. unfold occurs_at.
    replace i with (from + (i - from))%nat by lia.
    rewrite <- drop_drop, N. discriminate.
  - right. exists (from + k)%nat. split; [rewrite E; lia|].
    repeat split.
    + lia.
    + unfold occurs_at. now rewrite <- drop_drop.
    + intros i Hi. unfold occurs_at.
      replace i with (from + (i - from))%nat by lia.
      rewrite <- drop_drop, L by lia. discriminate.
Qed.

Lemma find_spec (sub : string) (Hsub : sub <> "") (s : string) :
  (Str.find sub s = -1 /\ none_from sub s 0)
  \/ (exists k, Str.find sub s = Z.of_nat k /\ first_from sub s 0 k).
Proof.
  pose proof (find_at_spec Hsub s 0) as H.
  unfold Str.find_at in H. simpl in H.
  replace (Str.drop 0 s) with s in H by (now destruct s).
  exact H.
Qed.

Lemma first_from_unique sub s from k k' :
  first_from sub s from k -> first_from sub s from k' -> k = k'.
Proof.
  intros (Hk & Ok & Lk) (Hk' & Ok' & Lk').
  destruct (Nat.lt_trichotomy k k') as [H|[H|H]]; [|exact H|].
  - exfalso. apply (Lk' k); [lia | exact Ok].
  - exfalso. apply (Lk k'); [lia | exact Ok'].
Qed.

Lemma first_from_not_none sub s from k :
  first_from sub s from k -> none_from sub s from -> False.
Proof. intros (Hk & Ok & _) N. exact (N k Hk Ok). Qed.

(* ------------------------------------------------------------------ *)
(** ** The brace scan *)

Lemma brace_depth_take_cons n c (s : string) :
  brace_depth (Str.take (S n) (String c s))
  = (if Ascii.eqb c "{" then 1 else if Ascii.eqb c "}" then -1 else 0)
    + brace_depth (Str.take n s).
Proof. reflexivity. Qed.

Lemma take_0 (s : string) : Str.take 0 s = "".
Proof. now destruct s. Qed.

(** From a positive count the scan stops at the first index at which the
    count, with the depth read so far, is zero; it finds none when there is
    no such index. *)
Lemma scan_braces_spec (s : string) :
  forall count i, 1 <= count ->
    match scan_braces s count i with
    | None =>
        forall n, (n <= String.length s)%nat ->
                  count + brace_depth (Str.take n s) <> 0
    | Some j =>
        exists n, (1 <= n <= String.length s)%nat
                  /\ j = i + Z.of_nat n - 1
                  /\ count + brace_depth (Str.take n s) = 0
                  /\ forall m, (m < n)%nat ->
                               count + brace_depth (Str.take m s) <> 0
    end.
Proof.
  induction s as [|c s IH]; intros count i Hc.
  - cbn [scan_braces]. intros n _.
    replace (Str.take n "") with "" by (now destruct n). simpl. lia.
  - cbn [scan_braces String.length].
    assert (Step : forall d, 1 <= count + d ->
              d = (if Ascii.eqb c "{" then 1
                   else if Ascii.eqb c "}" then -1 else 0) ->
              match scan_braces s (count + d) (i + 1) with
              | None =>
                  forall n, (n <= S (String.length s))%nat ->
                    count + brace_depth (Str.take n (String c s)) <> 0
              | Some j =>
                  exists n, (1 <= n <= S (String.length s))%nat
                    /\ j = i + Z.of_nat n - 1
                    /\ count + brace_depth (Str.take n (String c s)) = 0
                    /\ forall m, (m < n)%nat ->
                         count + brace_depth (Str.take m (String c s)) <> 0
              end).
    { intros d Hd Ed. specialize (IH (count + d) (i + 1) Hd).
      destruct (scan_braces s (count + d) (i + 1)) as [j|].
      - destruct IH as (n & Hn & Ej & Z0 & L).
        exists (S n). split; [lia|]. split; [lia|]. split.
        + rewrite brace_depth_take_cons, <- Ed. lia.
        + intros [|m] Hm; [rewrite take_0; simpl; lia|].
          rewrite brace_depth_take_cons, <- Ed.
          specialize (L m ltac:(lia)). lia.
      - intros [|n] Hn; [rewrite take_0; simpl; lia|].
        rewrite brace_depth_take_cons, <- Ed.
        specialize (IH n ltac:(lia)). lia. }
    destruct (Ascii.eqb c "{") eqn:Eo.
    + apply (Step 1); [lia | reflexivity].
    + destruct (Ascii.eqb c "}") eqn:Ec.
      * destruct (Z.eqb_spec (count - 1) 0) as [Z0|NZ].
        -- exists 1%nat. split; [lia|]. split; [lia|]. split.
           ++ rewrite brace_depth_take_cons, Eo, Ec, take_0. simpl. lia.
           ++ intros m Hm. assert (m = 0)%nat by lia. subst m.
              rewrite take_0. simpl. lia.
        -- pose proof (Step (-1) ltac:(lia) eq_refl) as S1.
           replace (count + -1) with (count - 1) in S1 by lia. exact S1.
      * pose proof (Step 0 ltac:(lia) eq_refl) as S0.
        replace (count + 0) with count in S0 by lia. exact S0.
Qed.

Lemma closes_at_unique s n n' : closes_at s n -> closes_at s n' -> n = n'.
Proof.
  intros (Hn & Zn & Ln) (Hn' & Zn' & Ln').
  destruct (Nat.lt_trichotomy n n') as [H|[H|H]]; [|exact H|].
  - exfalso. apply (Ln' n); [lia | exact Zn].
  - exfalso. apply (Ln n'); [lia | exact Zn'].
Qed.

Lemma closes_at_not_never s n : closes_at s n -> never_closes s -> False.
Proof. intros (Hn & Zn & _) N. exact (N n Hn Zn). Qed.

Lemma prefix_brace_inv (s : string) :
  prefix "{" s = true -> exists r, s = String "{" r.
Proof.
  destruct s as [|c r]; cbn [prefix]; [discriminate|].
  destruct (Ascii.ascii_dec "{" c) as [E|N]; [|discriminate].
  intros _. exists r. now subst c.
Qed.

(** The scan of the code, started on an opening brace with a zero count. *)
Lemma scan_from_open_brace (r : string) (b : Z) :
  match scan_braces (String "{" r) 0 b with
  | None => never_closes (String "{" r)
  | Some j => exists n, closes_at (String "{" r) n /\ j = b + Z.of_nat n - 1
  end.
Proof.
  cbn [scan_braces]. rewrite Ascii.eqb_refl.
  pose proof (@scan_braces_spec r 1 (b + 1) ltac:(lia)) as H.
  replace (0 + 1) with 1 by lia.
  destruct (scan_braces r 1 (b + 1)) as [j|].
  - destruct H as (n & Hn & Ej & Z0 & L).
    exists (S n). split; [|lia].
    split; [cbn [String.length]; lia|]. split.
    + rewrite brace_depth_take_cons. cbn. cbn in Z0. lia.
    + intros [|m] Hm; [lia|].
      rewrite brace_depth_take_cons. cbn.
      specialize (L m ltac:(lia)). cbn in L. lia.
  - intros [|n] Hn; [lia|].
    rewrite brace_depth_take_cons. cbn.
    cbn [String.length] in Hn.
    specialize (H n ltac:(lia)). cbn in H. lia.
Qed.

Section Extractor.

Context {R : Runtime}.

(** The extractor computes an outcome the specification prescribes. *)
Lemma extract_total (js : string) :
  exists o, extract_outcome js o
            /\ extract_swagger_doc_from_js js = extract_result o.
Proof.
  unfold extract_swagger_doc_from_js. cbv zeta.
  destruct (@find_spec "swaggerDoc" ltac:(discriminate) js)
    as [[E N]|[k [E F]]]; rewrite E.
  { exists (inl KeyNotFound). split; [now constructor | reflexivity]. }
  destruct (Z.eqb_spec (Z.of_nat k) (-1)) as [Bad|_]; [lia|].
  destruct (@find_at_spec "{" ltac:(discriminate) js k)
    as [[Eb Nb]|[b [Eb Fb]]]; rewrite Eb.
  { exists (inl MalformedEmbedding).
    split; [now apply outcome_malformed with k | reflexivity]. }
  destruct (Z.eqb_spec (Z.of_nat b) (-1)) as [Bad|_]; [lia|].
  rewrite Nat2Z.id.
  destruct Fb as (Hkb & Ob & Lb).
  destruct (prefix_brace_inv _ Ob) as [r Er].
  pose proof (scan_from_open_brace r (Z.of_nat b)) as S.
  rewrite Er.
  destruct (scan_braces (String "{" r) 0 (Z.of_nat b)) as [j|].
  - destruct S as (n & C & Ej).
    assert (Hslice : slice (Z.of_nat b) (j + 1) js
                     = Str.take n (Str.drop b js)).
    { unfold slice. rewrite Nat2Z.id. f_equal. lia. }
    rewrite Hslice. rewrite <- Er in C.
    destruct (json_loads (Str.take n (Str.drop b js))) as [msg|v] eqn:L.
    + exists (inl (EmbeddedJsonParseError msg)). split; [|reflexivity].
      apply outcome_parse_error with k b n; auto. repeat split; auto.
    + exists (inr v). split; [|reflexivity].
      apply outcome_value with k b n; auto. repeat split; auto.
  - exists (inl UnbalancedBraces). split; [|reflexivity].
    apply outcome_unbalanced with k b; auto.
    + repeat split; auto.
    + now rewrite Er.
Qed.

Lemma extract_outcome_functional (js : string) o o' :
  extract_outcome js o -> extract_outcome js o' -> o = o'.
Proof.
  intros H H'.
  destruct H; destruct H';
    repeat match goal with
      | _ => reflexivity
      | N : none_from ?sub ?s ?f, F : first_from ?sub ?s ?f _ |- _ =>
          exfalso; exact (first_from_not_none F N)
      | F : first_from ?sub ?s ?f ?k, F' : first_from ?sub ?s ?f ?k' |- _ =>
          assert (k = k') by exact (first_from_unique F F');
          subst k'; clear F'
      | C : closes_at ?s _, N : never_closes ?s |- _ =>
          exfalso; exact (closes_at_not_never C N)
      | C : closes_at ?s ?n, C' : closes_at ?s ?n' |- _ =>
          assert (n = n') by exact (closes_at_unique C C');
          subst n'; clear C'
      | L : json_loads ?t = _, L' : json_loads ?t = _ |- _ =>
          rewrite L in L'; inversion L'; subst; clear L'
      end.
Qed.

Lemma extract_result_injective o o' :
  extract_result o = extract_result o' -> o = o'.
Proof.
  destruct o as [e|v], o' as [e'|v']; simpl; intros H;
    try discriminate; [|congruence].
  destruct e, e'; simpl in H; try discriminate; try reflexivity.
  inversion H. reflexivity.
Qed.

(** C4.  The extractor fails with [KeyNotFound] when the key occurs nowhere,
    with [MalformedEmbedding] when no opening brace follows the first
    occurrence of the key, with [UnbalancedBraces] when the depth counted
    from the first such brace never returns to zero, with
    [EmbeddedJsonParseError], carrying the parser's message, when the text up
    to the closing brace is rejected by the parser, and returns the parsed
    value otherwise: the result of the code is the outcome of section 4.2,
    and no other. *)
Theorem extract_swagger_doc_from_js_outcome (js : string)
    (o : extract_error + json) :
  extract_outcome js o <-> extract_swagger_doc_from_js js = extract_result o.
Proof.
  destruct (extract_total js) as (o0 & H0 & E0). split.
  - intros H. now rewrite (extract_outcome_functional H H0).
  - intros E. rewrite E0 in E.
    now rewrite <- (@extract_result_injective o0 o E).
Qed.

End Extractor.

(* ------------------------------------------------------------------ *)
(** ** Round trip of the extractor *)

Lemma occurs_beforeb_false (sub : string) (n : nat) :
  forall s, occurs_beforeb sub s n = false ->
            forall i, (i < n)%nat -> ~ occurs_at sub s i.
Proof.
  unfold occurs_at.
  induction n as [|n IH]; intros s H i Hi; [lia|].
  cbn [occurs_beforeb] in H. apply orb_false_iff in H as [P Q].
  destruct i as [|i].
  - replace (Str.drop 0 s) with s by (now destruct s). congruence.
  - destruct s as [|c r].
    + rewrite drop_empty. congruence.
    + rewrite drop_cons. apply IH; [exact Q | lia].
Qed.

Lemma closes_atb_true (s : string) (n : nat) :
  closes_atb s n = true -> closes_at s n.
Proof.
  unfold closes_atb, closes_at. intros H.
  apply andb_true_iff in H as [H Hall].
  apply andb_true_iff in H as [H Hz].
  apply andb_true_iff in H as [H1 H2].
  apply Nat.leb_le in H1, H2. apply Z.eqb_eq in Hz.
  repeat split; try assumption.
  intros m Hm. rewrite List.forallb_forall in Hall.
  specialize (Hall m). rewrite in_seq in Hall.
  specialize (Hall ltac:(lia)).
  apply negb_true_iff in Hall. now apply Z.eqb_neq.
Qed.

Lemma prefix_app (a b : string) : prefix a (a ++ b) = true.
Proof.
  induction a as [|c a IH]; cbn [prefix append]; [now destruct b|].
  destruct (Ascii.ascii_dec c c); [exact IH | congruence].
Qed.

Lemma take_app_le n (a b : string) :
  (n <= String.length a)%nat -> Str.take n (a ++ b) = Str.take n a.
Proof.
  revert a; induction n as [|n IH]; intros a H.
  - now rewrite !take_0.
  - destruct a as [|c a]; cbn [String.length] in H; [lia|].
    cbn. now rewrite IH by lia.
Qed.

Lemma closes_at_app (a b : string) n :
  closes_at a n -> closes_at (a ++ b) n.
Proof.
  intros (Hn & Zn & Ln). repeat split.
  - lia.
  - rewrite length_app. lia.
  - now rewrite take_app_le by lia.
  - intros m Hm. rewrite take_app_le by lia. now apply Ln.
Qed.

Lemma no_brace_before (t u : string) :
  Str.forallb not_open_brace t = true ->
  forall j, (j < String.length t)%nat ->
            prefix "{" (Str.drop j (t ++ u)) = false.
Proof.
  induction t as [|c t IH]; intros H j Hj; cbn [String.length] in Hj; [lia|].
  cbn [Str.forallb] in H. apply andb_true_iff in H as [Hc Ht].
  destruct j as [|j].
  - cbn [append Str.drop prefix].
    destruct (Ascii.ascii_dec "{" c) as [E|N]; [|reflexivity].
    subst c. discriminate.
  - cbn [append]. rewrite drop_cons. apply IH; [exact Ht | lia].
Qed.

Section RoundTrip.

Context {R : Runtime}.

(** C3 (as the code has it).  A text [ser] that the parser reads as [obj],
    that begins with an opening brace and whose brace depth returns to zero
    for the first time at its last character, embedded after the key
    [swaggerDoc] in a script text, is extracted as [obj], provided that the
    key begins nowhere before the embedding and that no opening brace
    stands between the key and [ser].  Braces nested in [ser] are counted;
    what follows [ser] is arbitrary. *)
Theorem extract_embedded_roundtrip (pre mid ser post : string) (obj : json) :
  let js := pre ++ "swaggerDoc" ++ mid ++ ser ++ post in
  (forall i, (i < String.length pre)%nat -> ~ occurs_at "swaggerDoc" js i) ->
  Str.forallb not_open_brace mid = true ->
  prefix "{" ser = true ->
  closes_at ser (String.length ser) ->
  json_loads ser = inr obj ->
  extract_swagger_doc_from_js js = Ok obj.
Proof.
  intros js Hpre Hmid Hopen Hclose Hload.
  set (k := String.length pre).
  set (b := (k + (10 + String.length mid))%nat).
  assert (Dk : Str.drop k js = "swaggerDoc" ++ mid ++ ser ++ post)
    by apply drop_app_length.
  assert (Db : Str.drop b js = ser ++ post).
  { unfold b. rewrite <- drop_drop, Dk.
    change (10 + String.length mid)%nat
      with (String.length "swaggerDoc" + String.length mid)%nat.
    rewrite <- length_app, <- app_assoc_s. apply drop_app_length. }
  assert (Fk : first_from "swaggerDoc" js 0 k).
  { repeat split.
    - lia.
    - unfold occurs_at. rewrite Dk. apply prefix_app.
    - intros i Hi. apply Hpre. lia. }
  assert (Fb : first_from "{" js k b).
  { repeat split.
    - unfold b; lia.
    - unfold occurs_at. rewrite Db.
      destruct (prefix_brace_inv _ Hopen) as [r Er]. rewrite Er.
      exact (prefix_app "{" (r ++ post)).
    - intros i Hi. unfold occurs_at.
      replace i with (k + (i - k))%nat by lia.
      rewrite <- drop_drop, Dk, <- app_assoc_s.
      rewrite no_brace_before; [discriminate | | ].
      + rewrite forallb_app. now rewrite Hmid.
      + rewrite length_app. cbn [String.length]. unfold b in Hi. lia. }
  assert (O : extract_outcome js (inr obj)).
  { apply outcome_value with k b (String.length ser); auto.
    - rewrite Db. now apply closes_at_app.
    - now rewrite Db, take_app_length. }
  destruct (extract_total js) as (o0 & H0 & E0).
  now rewrite E0, <- (extract_outcome_functional O H0).
Qed.

End RoundTrip.

Lemma extract_embedded_roundtrip_witness :
  @extract_swagger_doc_from_js Demo.runtime
    (Demo.script_pre ++ "swaggerDoc" ++ Demo.script_mid
     ++ Demo.embedded_text ++ Demo.script_post)
  = Ok Demo.embedded_object.
Proof.
  apply (@extract_embedded_roundtrip Demo.runtime Demo.script_pre
           Demo.script_mid Demo.embedded_text Demo.script_post
           Demo.embedded_object).
  - apply occurs_beforeb_false. vm_compute. reflexivity.
  - vm_compute. reflexivity.
  - vm_compute. reflexivity.
  - apply closes_atb_true. vm_compute. reflexivity.
  - vm_compute. reflexivity.
Defined.

(** C3, counterexample.  The object [{"a": "}"}] is read back by the parser
    from its own text, yet embedded after the key it is not extracted: the
    scan stops at the brace inside the string.  And an object embedded
    behind an earlier mention of the key is not the one extracted. *)
Lemma extract_roundtrip_broken_by_string_brace :
  Demo.loads Demo.brace_text = inr Demo.brace_object
  /\ @extract_swagger_doc_from_js Demo.runtime
       ("swaggerDoc = " ++ Demo.brace_text ++ ";")
     = Raise (ValueError "Failed to parse swaggerDoc JSON: Expecting value")
  /\ @extract_swagger_doc_from_js Demo.runtime
       ("if (!window.swaggerDoc) { window.init = 1; } var swaggerDoc = "
        ++ Demo.embedded_text ++ ";")
     <> Ok Demo.embedded_object.
Proof.
  split; [vm_compute; reflexivity|].
  split; [vm_compute; reflexivity|].
  vm_compute. discriminate.
Qed.

(* ------------------------------------------------------------------ *)
(** ** Dictionaries *)

Lemma lookup_setitem_same k v (d : dict) :
  Py.lookup k (Py.setitem k v d) = Some v.
Proof.
  induction d as [|[k' v'] d IH]; cbn [Py.setitem Py.lookup].
  - now rewrite String.eqb_refl.
  - destruct (String.eqb k' k) eqn:E; cbn [Py.lookup];
      rewrite ?String.eqb_refl, ?E; auto.
Qed.

Lemma lookup_setitem_other k k' v (d : dict) :
  k' <> k -> Py.lookup k' (Py.setitem k v d) = Py.lookup k' d.
Proof.
  intros N. induction d as [|[k0 v0] d IH]; cbn [Py.setitem Py.lookup].
  - destruct (String.eqb_spec k k'); [congruence | reflexivity].
  - destruct (String.eqb_spec k0 k) as [->|N0]; cbn [Py.lookup].
    + destruct (String.eqb_spec k k'); [congruence|].
      reflexivity.
    + destruct (String.eqb_spec k0 k'); [reflexivity | exact IH].
Qed.

Lemma has_key_setitem k k' v (d : dict) :
  Py.has_key k' (Py.setitem k v d) = String.eqb k k' || Py.has_key k' d.
Proof.
  unfold Py.has_key.
  destruct (String.eqb_spec k k') as [->|N].
  - now rewrite lookup_setitem_same.
  - rewrite lookup_setitem_other by congruence. reflexivity.
Qed.

Lemma in_keys_has_key k (d : dict) :
  In k (Py.keys d) <-> Py.has_key k d = true.
Proof.
  unfold Py.has_key, Py.keys.
  induction d as [|[k' v'] d IH]; cbn [List.map fst Py.lookup In].
  - split; [tauto | discriminate].
  - destruct (String.eqb_spec k' k) as [->|N].
    + split; auto.
    + rewrite IH. split; [intros [E|H]; [congruence | exact H] | auto].
Qed.

(* ------------------------------------------------------------------ *)
(** ** The parameter resolver *)

Lemma resolvable_inv (p : json) :
  resolvable p = true ->
  exists d n, p = JObj d /\ Py.lookup "name" d = Some (JStr n)
              /\ type_hint_readable p = true.
Proof.
  unfold resolvable, param_name.
  destruct p as [| | | | |l|d]; try discriminate.
  destruct (Py.lookup "name" d) as [[| | | |n| |]|] eqn:E; try discriminate.
  intros H. now exists d, n.
Qed.

Lemma param_type_hint_ok (p : json) :
  is_object p = true -> type_hint_readable p = true ->
  is_ok (param_type_hint p) = true.
Proof.
  destruct p as [| | | | |l|d]; try discriminate. intros _.
  unfold type_hint_readable, param_type_hint, field.
  cbn [Py.get bind].
  destruct (Py.lookup "type" d) as [t|].
  - destruct (Py.truthy t); [reflexivity|]. cbn [orb].
    destruct (Py.lookup "schema" d) as [sch|]; [|reflexivity].
    destruct (Py.truthy sch); [|reflexivity].
    destruct sch; cbn; try discriminate. reflexivity.
  - cbn [Py.truthy orb].
    destruct (Py.lookup "schema" d) as [sch|]; [|reflexivity].
    destruct (Py.truthy sch); [|reflexivity].
    destruct sch; cbn; try discriminate. reflexivity.
Qed.

(** One round of the loop of [parse_parameters]. *)
Lemma parse_parameters_step (p : json) (args : list string) (defaults : dict) :
  resolvable p = true ->
  (raw <- Py.getitem p "name" ;;
   name <- call_sanitize_name raw ;;
   required <- Py.get p "required" (JBool false) ;;
   param_type <- param_type_hint p ;;
   Ok ((args ++ [name])%list,
       if negb (Py.truthy required) then Py.setitem name JNull defaults
       else defaults))%result
  = Ok ((args ++ [arg_name p])%list,
        if is_required p then defaults
        else Py.setitem (arg_name p) JNull defaults).
Proof.
  intros H. destruct (resolvable_inv _ H) as (d & n & -> & En & Ht).
  pose proof (@param_type_hint_ok (JObj d) eq_refl Ht) as Hok.
  unfold arg_name, is_required, param_name, field.
  cbn [Py.getitem Py.get bind]. rewrite En. cbn [call_sanitize_name bind].
  destruct (param_type_hint (JObj d)); [|discriminate]. cbn [bind].
  destruct (Py.lookup "required" d) as [r|]; cbn [Py.truthy negb];
    [destruct (Py.truthy r)|]; reflexivity.
Qed.

Lemma parse_parameters_loop (ps : list json) :
  List.forallb resolvable ps = true ->
  forall args defaults,
    for_each
      (fun (acc : list string * dict) (param : json) =>
         let '(args, defaults) := acc in
         raw <- Py.getitem param "name" ;;
         name <- call_sanitize_name raw ;;
         required <- Py.get param "required" (JBool false) ;;
         param_type <- param_type_hint param ;;
         let defaults :=
           if negb (Py.truthy required) then Py.setitem name JNull defaults
           else defaults in
         Ok ((args ++ [name])%list, defaults))%result
      ps (args, defaults)
    = Ok ((args ++ List.map arg_name ps)%list, resolved_defaults ps defaults).
Proof.
  induction ps as [|p ps IH]; intros H args defaults.
  - cbn. now rewrite List.app_nil_r.
  - cbn [List.forallb] in H. apply andb_true_iff in H as [Hp Hps].
    cbn [for_each].
    rewrite (@parse_parameters_step p args defaults Hp).
    cbn [bind].
    rewrite (IH Hps). cbn [List.map resolved_defaults fold_left].
    now rewrite <- List.app_assoc.
Qed.

Lemma parse_parameters_ok (ps : list json) :
  List.forallb resolvable ps = true ->
  parse_parameters (JArr ps)
  = Ok (List.map arg_name ps, resolved_defaults ps []).
Proof.
  intros H. unfold parse_parameters. cbn [Py.iter bind].
  now rewrite (@parse_parameters_loop ps H).
Qed.

Lemma resolved_defaults_keep (ps : list json) k :
  forall defaults,
    Py.lookup k defaults = Some JNull ->
    Py.lookup k (resolved_defaults ps defaults) = Some JNull.
Proof.
  induction ps as [|p ps IH]; intros defaults H; [exact H|].
  cbn [resolved_defaults fold_left]. apply IH.
  destruct (is_required p); [exact H|].
  destruct (String.eqb_spec (arg_name p) k) as [->|N].
  - apply lookup_setitem_same.
  - rewrite lookup_setitem_other by congruence. exact H.
Qed.

Lemma resolved_defaults_optional (ps : list json) (p : json) :
  In p ps -> is_required p = false ->
  forall defaults,
    Py.lookup (arg_name p) (resolved_defaults ps defaults) = Some JNull.
Proof.
  induction ps as [|q ps IH]; intros Hin Hr defaults; [destruct Hin|].
  cbn [resolved_defaults fold_left].
  destruct Hin as [->|Hin].
  - rewrite Hr. apply resolved_defaults_keep, lookup_setitem_same.
  - now apply IH.
Qed.

(** C5 (as the code has it).  For every list of parameter specifications
    that are objects with a string [name], and whose [schema], where it is
    consulted, is an object, resolution succeeds: the arguments are the
    sanitized names in order, a parameter whose [required] is missing or
    false is optional with the absent sentinel as its default, and a
    parameter with neither [type] nor [schema] has the type hint [str]. *)
Theorem parse_parameters_defaulting (ps : list json) :
  List.forallb resolvable ps = true ->
  exists defaults,
    parse_parameters (JArr ps) = Ok (List.map arg_name ps, defaults)
    /\ (forall p, In p ps -> is_required p = false ->
                  Py.lookup (arg_name p) defaults = Some JNull)
    /\ (forall p, In p ps -> field "required" p = None ->
                  is_required p = false)
    /\ (forall p, In p ps -> field "type" p = None ->
                  field "schema" p = None ->
                  param_type_hint p = Ok (JStr "str")).
Proof.
  intros H. exists (resolved_defaults ps []).
  split; [now apply parse_parameters_ok|].
  split; [intros p Hin Hr; now apply resolved_defaults_optional|].
  split.
  - intros p _ Hm. unfold is_required. now rewrite Hm.
  - intros p Hin Ht Hs.
    rewrite List.forallb_forall in H.
    destruct (resolvable_inv _ (H p Hin)) as (d & n & -> & _ & _).
    unfold field in Ht, Hs. unfold param_type_hint.
    cbn [Py.get bind]. rewrite Ht. cbn [Py.truthy].
    rewrite Hs. reflexivity.
Qed.

Lemma parse_parameters_defaulting_witness :
  exists defaults,
    parse_parameters
      (JArr [JObj [("name", JStr "api-key"); ("in", JStr "header")];
             JObj [("name", JStr "petId"); ("in", JStr "path");
                   ("required", JBool true)]])
    = Ok (["api_key"; "petId"], defaults)
    /\ Py.lookup "api_key" defaults = Some JNull.
Proof.
  destruct (@parse_parameters_defaulting
              [JObj [("name", JStr "api-key"); ("in", JStr "header")];
               JObj [("name", JStr "petId"); ("in", JStr "path");
                     ("required", JBool true)]] eq_refl)
    as (defaults & E & Hopt & _).
  exists defaults. split; [exact E|].
  apply (Hopt (JObj [("name", JStr "api-key"); ("in", JStr "header")]));
    [now left | reflexivity].
Defined.

(** C5, counterexample: an entry without [name] makes the resolver raise
    [KeyError]. *)
Lemma parse_parameters_missing_name :
  parse_parameters (JArr [JObj [("in", JStr "query")]])
  = Raise (KeyError "name").
Proof. reflexivity. Qed.

(* ------------------------------------------------------------------ *)
(** ** The argument list of [build_func] *)

Lemma not_truthy_declares_nothing (rb : json) :
  Py.truthy rb = false -> declares_json rb = false.
Proof.
  destruct rb as [| | | | |l|d]; try reflexivity.
  destruct d; [reflexivity | discriminate].
Qed.

(** The branch of [build_func] on the request body. *)
Lemma request_body_branch (rb : json) :
  body_well_formed rb = true ->
  (if Py.truthy rb then
     content <- Py.get rb "content" (JObj []) ;;
     Py.contains "application/json" content
   else Ok false)%result
  = Ok (declares_json rb).
Proof.
  unfold body_well_formed. intros H.
  destruct (Py.truthy rb) eqn:T.
  - cbn [negb orb] in H.
    destruct rb as [| | | | |l|d]; try discriminate.
    unfold declares_json. cbn [Py.get bind].
    destruct (Py.lookup "content" d) as [c|]; [|reflexivity].
    destruct c; try discriminate. reflexivity.
  - now rewrite not_truthy_declares_nothing.
Qed.

Lemma build_func_args_ok (o : dict) (ps : list json) :
  operation_parameters o = JArr ps ->
  List.forallb resolvable ps = true ->
  body_well_formed (operation_request_body o) = true ->
  build_func_args (JObj o)
  = Ok (JArr ps, operation_request_body o,
        if declares_json (operation_request_body o)
        then ((List.map arg_name ps ++ ["body"])%list,
              Py.setitem "body" JNull (resolved_defaults ps []))
        else (List.map arg_name ps, resolved_defaults ps [])).
Proof.
  intros Hp Hps Hb.
  unfold build_func_args. cbn [Py.get bind].
  fold (operation_parameters o). fold (operation_request_body o).
  rewrite Hp. rewrite (parse_parameters_ok _ Hps).
  pose proof (request_body_branch _ Hb) as Br.
  destruct (Py.truthy (operation_request_body o)).
  - destruct (Py.get (operation_request_body o) "content" (JObj []))
      as [c|e]; [|discriminate].
    cbn [bind] in Br |- *. rewrite Br. cbn [bind].
    destruct (declares_json (operation_request_body o)); reflexivity.
  - injection Br as <-. reflexivity.
Qed.

(** C6.  For every operation whose parameters are resolvable and whose
    request body is well formed, the resolved arguments are the sanitized
    parameter names in the order of the parameters, followed by [body] if
    and only if the request body is present and declares
    [application/json] content; that [body] argument is optional, with the
    absent sentinel as its default.  Sanitizing a name leaves its length
    and replaces exactly its hyphens by underscores. *)
Theorem build_func_args_order (o : dict) (ps : list json) :
  operation_parameters o = JArr ps ->
  List.forallb resolvable ps = true ->
  body_well_formed (operation_request_body o) = true ->
  let rb := operation_request_body o in
  exists defaults,
    build_func_args (JObj o)
    = Ok (JArr ps, rb,
          ((List.map arg_name ps
            ++ (if declares_json rb then ["body"] else []))%list,
           defaults))
    /\ (if declares_json rb
        then Py.lookup "body" defaults = Some JNull
        else defaults = resolved_defaults ps [])
    /\ (forall name, sanitize_name name
                     = Str.map (fun c => if Ascii.eqb c "-" then "_"%char
                                         else c) name).
Proof.
  intros Hp Hps Hb rb. subst rb.
  rewrite (build_func_args_ok _ Hp Hps Hb).
  destruct (declares_json (operation_request_body o)).
  - eexists. split; [reflexivity|]. split; [apply lookup_setitem_same|].
    intros name. unfold sanitize_name.
    induction name as [|c r IH]; cbn; [reflexivity|].
    rewrite IH. now destruct (Ascii.eqb c "-").
  - eexists. rewrite List.app_nil_r. split; [reflexivity|].
    split; [reflexivity|].
    intros name. unfold sanitize_name.
    induction name as [|c r IH]; cbn; [reflexivity|].
    rewrite IH. now destruct (Ascii.eqb c "-").
Qed.

Lemma build_func_args_order_witness :
  exists defaults,
    build_func_args
      (JObj [("parameters",
              JArr [JObj [("name", JStr "api-key"); ("in", JStr "header")];
                    JObj [("name", JStr "petId"); ("in", JStr "path");
                          ("required", JBool true)]]);
             ("requestBody",
              JObj [("content",
                     JObj [("application/json", JObj [])])])])
    = Ok (JArr [JObj [("name", JStr "api-key"); ("in", JStr "header")];
                JObj [("name", JStr "petId"); ("in", JStr "path");
                      ("required", JBool true)]],
          JObj [("content", JObj [("application/json", JObj [])])],
          (["api_key"; "petId"; "body"], defaults))
    /\ Py.lookup "body" defaults = Some JNull.
Proof.
  destruct (@build_func_args_order
              [("parameters",
                JArr [JObj [("name", JStr "api-key"); ("in", JStr "header")];
                      JObj [("name", JStr "petId"); ("in", JStr "path");
                            ("required", JBool true)]]);
               ("requestBody",
                JObj [("content",
                       JObj [("application/json", JObj [])])])]
              [JObj [("name", JStr "api-key"); ("in", JStr "header")];
               JObj [("name", JStr "petId"); ("in", JStr "path");
                     ("required", JBool true)]]
              eq_refl eq_refl eq_refl)
    as (defaults & E & Hbody & _).
  exists defaults. split; [exact E | exact Hbody].
Defined.

(* ------------------------------------------------------------------ *)
(** ** The transport *)

Section Transport.

Context {R : Runtime}.

Lemma after_call_never_raises (c : http_call) (log : list http_call) :
  exists v,
    io_try
      (response <- request c ;;
       match response_json response with
       | Ok v => io_ret v
       | Raise e =>
           if is_ValueError e
           then io_ret (JObj [("raw_response", JStr (text response))])
           else io_raise e
       end)%io
      is_RequestException
      (fun e =>
         io_ret (JObj [("error", JStr ("API request failed: " ++ exn_str e))]))
      log
    = (Ok v, (log ++ [c])%list).
Proof.
  unfold io_try, io_bind, request, response_json.
  destruct (send log c) as [msg|resp].
  - cbn. eexists. reflexivity.
  - destruct (json_loads (text resp)) as [msg|v]; cbn; eexists; reflexivity.
Qed.

(** The transport never raises, and makes the calls [transport_calls]
    lists. *)
Lemma make_api_request_calls (rq : api_request) (log : list http_call) :
  exists v,
    make_api_request (rq_method rq) (rq_path rq) (rq_data rq)
                     (rq_params rq) (rq_headers rq) log
    = (Ok v, (log ++ transport_calls rq)%list).
Proof.
  unfold make_api_request, transport_calls, verb_of. cbv zeta.
  assert (Hh : (if Py.truthy (JObj (rq_headers rq))
                then Py.update default_headers (rq_headers rq)
                else default_headers)
               = match rq_headers rq with
                 | [] => default_headers
                 | hs => Py.update default_headers hs
                 end)
    by (destruct (rq_headers rq); reflexivity).
  fold default_headers. rewrite Hh.
  destruct (String.eqb (Str.lower (rq_method rq)) "get");
    [apply after_call_never_raises|].
  destruct (String.eqb (Str.lower (rq_method rq)) "post");
    [apply after_call_never_raises|].
  destruct (String.eqb (Str.lower (rq_method rq)) "put");
    [apply after_call_never_raises|].
  destruct (String.eqb (Str.lower (rq_method rq)) "delete");
    [apply after_call_never_raises|].
  rewrite List.app_nil_r. eexists. reflexivity.
Qed.

(** A handler whose request is built returns a string and makes the calls
    of that request. *)
Lemma api_tool_calls endpoint method parameters request_body kwargs rq log :
  api_tool_request endpoint method parameters request_body kwargs = Ok rq ->
  exists out,
    api_tool endpoint method parameters request_body kwargs log
    = (Ok out, (log ++ transport_calls rq)%list).
Proof.
  intros E. unfold api_tool, io_bind, io_lift, io_ret. rewrite E.
  destruct (make_api_request_calls rq log) as [v ->].
  eexists. reflexivity.
Qed.

End Transport.

(* ------------------------------------------------------------------ *)
(** ** The handler *)

Lemma in_keys_setitem k n v (m : dict) :
  In k (Py.keys (Py.setitem n v m)) -> k = n \/ In k (Py.keys m).
Proof.
  rewrite !in_keys_has_key, has_key_setitem.
  destruct (String.eqb_spec n k) as [->|N]; [now left | now right].
Qed.

Lemma values_present_setitem kwargs n v (m : dict) :
  Py.is_none (kwargs_get kwargs (sanitize_name n)) = false ->
  values_present kwargs m -> values_present kwargs (Py.setitem n v m).
Proof.
  intros Hn Hm k Hk.
  destruct (in_keys_setitem _ _ _ _ Hk) as [->|H]; [exact Hn | now apply Hm].
Qed.

Lemma named_inv (p : json) :
  named p = true ->
  exists d n, p = JObj d /\ Py.lookup "name" d = Some (JStr n).
Proof.
  unfold named, param_name.
  destruct p as [| | | | |l|d]; try discriminate.
  destruct (Py.lookup "name" d) as [[| | | |n| |]|] eqn:E; try discriminate.
  intros _. now exists d, n.
Qed.


(** The loop of the handler never raises on named parameters, and enters
    a name in a mapping only with a value that is not the absent
    sentinel. *)
Lemma collect_loop (kwargs : dict) (ps : list json) :
  List.forallb named ps = true ->
  forall pp qp hs,
    values_present kwargs pp -> values_present kwargs qp ->
    values_present kwargs hs ->
    exists pp' qp' hs',
      for_each
        (fun (acc : dict * dict * dict) (param : json) =>
           let '(path_params, query_params, headers) := acc in
           raw <- Py.getitem param "name" ;;
           param_location <- Py.get param "in" (JStr "query") ;;
           match raw with
           | JStr raw_name =>
               let sanitized_name := sanitize_name raw_name in
               let value := kwargs_get kwargs sanitized_name in
               if Py.is_none value then Ok acc
               else if Py.eq_str "path" param_location
               then Ok (Py.setitem raw_name value path_params,
                        query_params, headers)
               else if Py.eq_str "query" param_location
               then Ok (path_params,
                        Py.setitem raw_name value query_params, headers)
               else if Py.eq_str "header" param_location
               then Ok (path_params, query_params,
                        Py.setitem raw_name value headers)
               else Ok acc
           | _ => Raise AttributeError
           end)%result
        ps (pp, qp, hs)
      = Ok (pp', qp', hs')
      /\ values_present kwargs pp' /\ values_present kwargs qp'
      /\ values_present kwargs hs'.
Proof.
  induction ps as [|p ps IH]; intros H pp qp hs Hpp Hqp Hhs.
  - exists pp, qp, hs. cbn. auto.
  - cbn [List.forallb] in H. apply andb_true_iff in H as [Hp Hps].
    destruct (named_inv _ Hp) as (d & n & -> & En).
    cbn [for_each Py.getitem Py.get bind]. rewrite En. cbn [bind].
    destruct (Py.is_none (kwargs_get kwargs (sanitize_name n))) eqn:V;
      cbn [bind]; [now apply IH|].
    repeat match goal with
           | |- context [if ?b then _ else _] => destruct b
           end;
      cbn [bind]; apply IH; auto using values_present_setitem.
Qed.

Lemma values_present_nil kwargs : values_present kwargs [].
Proof. intros k []. Qed.

Lemma collect_params_ok (kwargs : dict) (ps : list json) :
  List.forallb named ps = true ->
  exists pp qp hs,
    collect_params (JArr ps) kwargs = Ok (pp, qp, hs)
    /\ values_present kwargs pp /\ values_present kwargs qp
    /\ values_present kwargs hs.
Proof.
  intros H. unfold collect_params. cbn [Py.iter bind].
  apply (@collect_loop kwargs ps H); apply values_present_nil.
Qed.

Lemma absent_not_key kwargs (m : dict) n :
  values_present kwargs m -> absent kwargs (sanitize_name n) ->
  ~ In n (Py.keys m).
Proof.
  intros Hm Ha Hin. specialize (Hm n Hin).
  unfold absent in Ha. rewrite Ha in Hm. discriminate.
Qed.

Section Handler.

Context {R : Runtime}.

Lemma api_tool_request_ok endpoint method request_body kwargs ps pp qp hs :
  collect_params (JArr ps) kwargs = Ok (pp, qp, hs) ->
  api_tool_request endpoint method (JArr ps) request_body kwargs
  = Ok (ApiRequest method (substitute_path endpoint pp)
          (if Py.truthy request_body && Py.has_key "body" kwargs
           then kwargs_get kwargs "body" else JNull)
          qp hs).
Proof. intros E. unfold api_tool_request. now rewrite E. Qed.


End Handler.

Section MissingParameter.

Context {R : Runtime}.

(** C1 (as the code has it).  Invoking the handler of a tool with a
    required path parameter absent raises no error: the parameter is
    skipped, no substitution is made for it, and the transport is handed
    the path as substituted from the other path parameters; the network is
    called as for any other invocation. *)
Theorem api_tool_missing_path_parameter
    (endpoint method : string) (request_body : json) (ps : list json)
    (kwargs : dict) (log : list http_call) (p : json) (n : string) :
  List.forallb named ps = true ->
  In p ps -> param_name p = Some n ->
  location p = JStr "path" -> is_required p = true ->
  absent kwargs (sanitize_name n) ->
  exists pp qp hs body out,
    collect_params (JArr ps) kwargs = Ok (pp, qp, hs)
    /\ ~ In n (Py.keys pp)
    /\ api_tool endpoint method (JArr ps) request_body kwargs log
       = (Ok out,
          (log ++ transport_calls
                    (ApiRequest method (substitute_path endpoint pp)
                                body qp hs))%list).
Proof.
  intros H _ _ _ _ Ha.
  destruct (@collect_params_ok kwargs ps H)
    as (pp & qp & hs & E & P1 & _ & _).
  pose proof (@api_tool_request_ok R endpoint method request_body kwargs
                ps pp qp hs E) as Erq.
  destruct (api_tool_calls _ _ _ _ _ log Erq) as [out Eout].
  exists pp, qp, hs. eexists. exists out.
  split; [exact E|]. split; [exact (@absent_not_key kwargs pp n P1 Ha)|].
  exact Eout.
Qed.

End MissingParameter.

Lemma api_tool_missing_path_parameter_witness :
  exists out,
    @api_tool Demo.runtime "/pet/{id}" "get" (JArr [id_param]) JNull [] []
    = (Ok out,
       [Call GET "https://app.turtlemint.com/pet/{id}" JNull (Some [])
             (Some default_headers)]).
Proof.
  destruct (@api_tool_missing_path_parameter Demo.runtime "/pet/{id}" "get"
              JNull [id_param] [] [] id_param "id"
              eq_refl (or_introl eq_refl) eq_refl eq_refl eq_refl eq_refl)
    as (pp & qp & hs & body & out & E & _ & Eout).
  exists out. rewrite Eout.
  vm_compute in E. injection E as <- <- <-. reflexivity.
Defined.

(** C1, counterexample: the tool built for [get /pet/{id}], invoked without
    [id], returns normally and has called the network with the literal
    placeholder in the URL. *)
Lemma api_tool_missing_id_calls_network :
  exists t,
    build_func "/pet/{id}" "get" (JObj [("parameters", JArr [id_param])])
    = Ok t
    /\ @call_tool Demo.runtime t [] []
       = (Ok "{}",
          [Call GET "https://app.turtlemint.com/pet/{id}" JNull (Some [])
                (Some default_headers)]).
Proof. eexists. split; vm_compute; reflexivity. Qed.

(* ------------------------------------------------------------------ *)
(** ** The signature of a built tool *)




Section BodyPassthrough.

Context {R : Runtime}.


End BodyPassthrough.


(* ------------------------------------------------------------------ *)
(** ** The spec acquirer *)

Section Acquirer.

Context {R : Runtime}.

Lemma raise_for_status_spec (r : response) :
  if is_error_status (status_code r)
  then exists cause, raise_for_status r = Raise cause
                     /\ is_RequestException cause = true
  else raise_for_status r = Ok tt.
Proof.
  unfold raise_for_status, is_error_status. cbv zeta.
  destruct (Z.leb_spec 400 (status_code r));
    destruct (Z.ltb_spec (status_code r) 500);
    destruct (Z.ltb_spec (status_code r) 600);
    destruct (Z.leb_spec 500 (status_code r));
    cbn; try lia; try reflexivity; eexists; split; reflexivity.
Qed.

Lemma extract_raises_value_error (js : string) e :
  extract_swagger_doc_from_js js = Raise e -> is_RequestException e = false.
Proof.
  destruct (extract_total js) as (o & _ & E). rewrite E.
  destruct o as [err|v]; cbn; [|discriminate].
  intros H. injection H as <-. now destruct err.
Qed.

(** C8 (as the code has it).  The acquirer makes one call.  When the call
    fails in the transport, or the response has a 4xx or 5xx status, it
    fails with [SpecFetchError] wrapping the cause; a response with any
    other status is dispatched on its declared content type, in lower
    case: one that contains [application/javascript] sends the body to
    the extractor, whose result and errors are returned as they are, one
    that contains [application/json] has the body parsed, a body that
    does not parse failing with [SpecFetchError], and any other fails with
    [UnsupportedSpecFormat] carrying the content type observed. *)
Theorem get_openapi_spec_outcome (log : list http_call) :
  exists r,
    get_openapi_spec log = (r, (log ++ [spec_call])%list)
    /\ acquired (send log spec_call) r.
Proof.
  unfold get_openapi_spec, io_try, io_bind, io_lift, io_raise, request.
  fold spec_call.
  destruct (send log spec_call) as [msg|resp].
  { cbn. eexists. split; [reflexivity | constructor]. }
  pose proof (raise_for_status_spec resp) as Hs.
  destruct (is_error_status (status_code resp)) eqn:St.
  { destruct Hs as (cause & -> & Hc). rewrite Hc.
    eexists. split; [reflexivity | now constructor]. }
  rewrite Hs. fold (declared_type resp).
  destruct (Str.contains "application/javascript" (declared_type resp)) eqn:Js.
  { destruct (extract_swagger_doc_from_js (text resp)) as [v|e] eqn:E.
    - eexists. split; [reflexivity|]. rewrite <- E. now constructor.
    - rewrite (extract_raises_value_error _ E).
      eexists. split; [reflexivity|]. rewrite <- E. now constructor. }
  destruct (Str.contains "application/json" (declared_type resp)) eqn:Jn.
  { unfold response_json.
    destruct (json_loads (text resp)) as [msg|v] eqn:L.
    - cbn. eexists. split; [reflexivity | now constructor].
    - eexists. split; [reflexivity | now constructor]. }
  cbn. eexists. split; [reflexivity | now constructor].
Qed.

End Acquirer.

(** C8, counterexample.  A response with status 300 and a JSON body is no
    failure: its body is returned.  And the content type
    [text/javascript] is not sent to the extractor. *)
Lemma get_openapi_spec_status_and_type :
  @get_openapi_spec (Demo.canned 300 "application/json" "{}") []
  = (Ok (JObj []), [spec_call])
  /\ @get_openapi_spec (Demo.canned 200 "text/javascript" "swaggerDoc = {}") []
     = (Raise (UnsupportedSpecFormat "text/javascript"), [spec_call])
  /\ @get_openapi_spec (Demo.canned 200 "Application/JavaScript"
                                    "swaggerDoc = {}") []
     = (Ok (JObj []), [spec_call]).
Proof. repeat split; vm_compute; reflexivity. Qed.

(* ------------------------------------------------------------------ *)
(** ** Registration *)

Lemma register_spec_petstore :
  register_spec petstore_doc = Ok [petstore_registration].
Proof. vm_compute. reflexivity. Qed.

Section Registration.

Context {R : Runtime}.

(** C9.  Registering the document of the end-to-end scenario produces
    exactly one tool; its name is [get_pet_petId], and its signature has
    exactly one parameter, [petId], without a default: it is required. *)
Theorem register_all_tools_petstore (log log' : list http_call) :
  get_openapi_spec log = (Ok petstore_doc, log') ->
  register_all_tools log = (Ok [petstore_registration], log')
  /\ reg_name petstore_registration = "get_pet_petId"
  /\ List.map (fun p => (Inspect.p_name p, Inspect.p_default p))
              (tool_signature (reg_func petstore_registration))
     = [("petId", None)].
Proof.
  intros H. unfold register_all_tools, io_bind, io_lift.
  rewrite H, register_spec_petstore. repeat split.
Qed.

End Registration.

Lemma register_all_tools_petstore_witness :
  Demo.loads Demo.petstore_text = inr petstore_doc
  /\ @register_all_tools Demo.runtime []
     = (Ok [petstore_registration], [spec_call]).
Proof.
  split; [vm_compute; reflexivity|].
  apply (@register_all_tools_petstore Demo.runtime [] [spec_call]).
  vm_compute. reflexivity.
Defined.

(* ================================================================== *)
(** * Further properties of the code *)

(* ------------------------------------------------------------------ *)
(** ** [sanitize_name] and [unsanitize_name] *)

Lemma replace_char_one_eq (c d : ascii) (s : string) :
  Str.replace_char c (String d EmptyString) s
  = Str.map (fun x => if Ascii.eqb x c then d else x) s.
Proof.
  induction s as [|x r IH]; cbn; [reflexivity|].
  rewrite IH. now destruct (Ascii.eqb x c).
Qed.

Lemma map_map_s (f g : ascii -> ascii) (s : string) :
  Str.map f (Str.map g s) = Str.map (fun x => f (g x)) s.
Proof. induction s as [|x r IH]; cbn; [reflexivity | now rewrite IH]. Qed.

Lemma map_ext_s (f g : ascii -> ascii) (s : string) :
  (forall x, f x = g x) -> Str.map f s = Str.map g s.
Proof.
  intros E. induction s as [|x r IH]; cbn; [reflexivity|].
  now rewrite E, IH.
Qed.

Lemma map_fixed_iff (f : ascii -> ascii) (s : string) :
  Str.map f s = s <-> Str.forallb (fun x => Ascii.eqb (f x) x) s = true.
Proof.
  induction s as [|x r IH]; cbn; [tauto|].
  rewrite andb_true_iff, <- IH. split.
  - intros H. injection H as Hx Hr. rewrite Hx, Ascii.eqb_refl. auto.
  - intros [Hx Hr]. apply Ascii.eqb_eq in Hx. now rewrite Hx, Hr.
Qed.

Lemma hyphen_underscore_cases (x : ascii) :
  (if Ascii.eqb (if Ascii.eqb x "-" then "_" else x) "_" then "-"
   else if Ascii.eqb x "-" then "_" else x)%char
  = (if Ascii.eqb x "_" then "-" else x)%char
  /\ (if Ascii.eqb (if Ascii.eqb x "_" then "-" else x) "-" then "_"
      else if Ascii.eqb x "_" then "-" else x)%char
     = (if Ascii.eqb x "-" then "_" else x)%char.
Proof.
  destruct (Ascii.eqb x "-") eqn:E1; destruct (Ascii.eqb x "_") eqn:E2;
    cbn; rewrite ?E1, ?E2; try apply Ascii.eqb_eq in E1;
    try apply Ascii.eqb_eq in E2; subst; auto; discriminate.
Qed.

(** X1.  [unsanitize_name] does not invert [sanitize_name]: sanitizing and
    then unsanitizing a name gives the name with every underscore turned
    into a hyphen, which is the name itself exactly when it has no
    underscore; and sanitizing an unsanitized name is sanitizing the
    name, which is the name itself exactly when it has no hyphen. *)
Theorem unsanitize_sanitize_name (name : string) :
  unsanitize_name (sanitize_name name) = unsanitize_name name
  /\ (unsanitize_name (sanitize_name name) = name
      <-> Str.forallb (fun c => negb (Ascii.eqb c "_")) name = true)
  /\ sanitize_name (unsanitize_name name) = sanitize_name name
  /\ (sanitize_name (unsanitize_name name) = name
      <-> Str.forallb (fun c => negb (Ascii.eqb c "-")) name = true)
  /\ String.length (sanitize_name name) = String.length name.
Proof.
  unfold unsanitize_name, sanitize_name.
  rewrite !replace_char_one_eq, !map_map_s.
  assert (E1 : Str.map (fun x => if Ascii.eqb (if Ascii.eqb x "-" then "_"
                                              else x) "_" then "-"
                                 else if Ascii.eqb x "-" then "_" else x)%char
                       name
               = Str.map (fun x => if Ascii.eqb x "_" then "-" else x)%char
                         name)
    by (apply map_ext_s; intros x; apply hyphen_underscore_cases).
  assert (E2 : Str.map (fun x => if Ascii.eqb (if Ascii.eqb x "_" then "-"
                                              else x) "-" then "_"
                                 else if Ascii.eqb x "_" then "-" else x)%char
                       name
               = Str.map (fun x => if Ascii.eqb x "-" then "_" else x)%char
                         name)
    by (apply map_ext_s; intros x; apply hyphen_underscore_cases).
  rewrite E1, E2.
  split; [reflexivity|]. split.
  { rewrite map_fixed_iff. erewrite forallb_ext; [reflexivity|].
    intros c. cbv beta.
    destruct (Ascii.eqb_spec c "_") as [->|N]; [reflexivity|].
    cbn. now rewrite Ascii.eqb_refl. }
  split; [reflexivity|]. split.
  { rewrite map_fixed_iff. erewrite forallb_ext; [reflexivity|].
    intros c. cbv beta.
    destruct (Ascii.eqb_spec c "-") as [->|N]; [reflexivity|].
    cbn. now rewrite Ascii.eqb_refl. }
  clear E1 E2.
  induction name as [|x r IH]; cbn [Str.map String.length];
    [reflexivity | now rewrite IH].
Qed.

(* ------------------------------------------------------------------ *)
(** ** Path substitution *)

Lemma replace_fuel_absent (old new : string) :
  forall fuel s,
    (forall i, prefix old (Str.drop i s) = false) ->
    Str.replace_fuel fuel old new s = s.
Proof.
  induction fuel as [|fuel IH]; intros s H; [reflexivity|].
  destruct s as [|x r]; [reflexivity|].
  cbn [Str.replace_fuel]. rewrite (H 0%nat : prefix old (String x r) = false).
  f_equal. apply IH. intros i. exact (H (S i)).
Qed.

Lemma not_contains_nowhere (old s : string) :
  old <> "" -> Str.contains old s = false ->
  forall i, prefix old (Str.drop i s) = false.
Proof.
  intros Hold H i. unfold Str.contains in H. apply negb_false_iff in H.
  apply Z.eqb_eq in H.
  destruct (@find_spec old Hold s) as [[_ N]|[k [E _]]]; [|lia].
  specialize (N i ltac:(lia)). unfold occurs_at in N.
  now destruct (prefix old (Str.drop i s)).
Qed.


Lemma replace_fuel_once (old new b : string) :
  old <> "" ->
  (forall i, prefix old (Str.drop i b) = false) ->
  forall a fuel,
    (String.length a < fuel)%nat ->
    (forall i, (i < String.length a)%nat ->
               prefix old (Str.drop i (a ++ old ++ b)) = false) ->
    Str.replace_fuel fuel old new (a ++ old ++ b) = a ++ new ++ b.
Proof.
  intros Hold Hb. induction a as [|c a IH]; intros fuel Hf Ha.
  - destruct fuel as [|fuel]; [cbn in Hf; lia|].
    cbn [append]. destruct old as [|o old']; [congruence|].
    cbn [Str.replace_fuel append].
    change (String o (old' ++ b)) with (String o old' ++ b).
    rewrite prefix_app, drop_app_length.
    now rewrite replace_fuel_absent.
  - destruct fuel as [|fuel]; [cbn in Hf; lia|].
    cbn [append Str.replace_fuel].
    rewrite (Ha 0%nat ltac:(cbn; lia)
             : prefix old (String c (a ++ old ++ b)) = false).
    f_equal. apply IH; [cbn in Hf; lia|].
    intros i Hi. apply (Ha (S i)). cbn. lia.
Qed.

Lemma brace_pattern_not_before (k a rest : string) :
  Str.forallb not_open_brace a = true ->
  forall i, (i < String.length a)%nat ->
            prefix ("{" ++ k ++ "}") (Str.drop i (a ++ rest)) = false.
Proof.
  induction a as [|c a IH]; intros H i Hi; cbn [String.length] in Hi; [lia|].
  cbn [Str.forallb] in H. apply andb_true_iff in H as [Hc Ha].
  destruct i as [|i].
  - cbn [append Str.drop prefix].
    destruct (Ascii.ascii_dec "{" c) as [E|N]; [|reflexivity].
    subst c. discriminate.
  - cbn [append]. rewrite drop_cons. apply IH; [exact Ha | lia].
Qed.

Section PathSubstitution.

Context {R : Runtime}.


(** X3.  The placeholder of a path parameter is replaced by the string
    form of its value: for an endpoint [a ++ "{k}" ++ b] with no opening
    brace in [a] and no further occurrence of the placeholder in [b], the
    path for the mapping of [k] to [v] alone is [a ++ str v ++ b]. *)
Theorem substitute_path_single (a k b : string) (v : json) :
  Str.forallb not_open_brace a = true ->
  Str.contains ("{" ++ k ++ "}") b = false ->
  substitute_path (a ++ ("{" ++ k ++ "}") ++ b) [(k, v)]
  = a ++ py_str v ++ b.
Proof.
  intros Ha Hb. unfold substitute_path. cbn [fold_left fst snd].
  unfold Str.replace. apply replace_fuel_once.
  - discriminate.
  - apply not_contains_nowhere; [discriminate | exact Hb].
  - rewrite !length_app. cbn. lia.
  - intros i Hi. now apply brace_pattern_not_before.
Qed.

End PathSubstitution.


Lemma substitute_path_single_witness :
  @substitute_path Demo.runtime "/pet/{petId}/uploadImage" [("petId", JInt 7)]
  = "/pet/7/uploadImage".
Proof.
  apply (@substitute_path_single Demo.runtime "/pet/" "petId" "/uploadImage"
           (JInt 7)); vm_compute; reflexivity.
Defined.

(* ------------------------------------------------------------------ *)
(** ** The extractor and the rest of the script *)

Lemma prefix_length (a s : string) :
  prefix a s = true -> (String.length a <= String.length s)%nat.
Proof.
  revert a; induction s as [|c s IH]; intros [|x a]; cbn [prefix String.length];
    intros H; try lia; try discriminate.
  destruct (Ascii.ascii_dec x c); [|discriminate].
  specialize (IH a H). lia.
Qed.

Lemma prefix_app_long (a s t : string) :
  (String.length a <= String.length s)%nat ->
  prefix a (s ++ t) = prefix a s.
Proof.
  revert a; induction s as [|c s IH]; intros [|x a] H;
    cbn [String.length] in H; try lia.
  - now destruct t.
  - cbn [append prefix]. now destruct (s ++ t).
  - cbn [append prefix].
    destruct (Ascii.ascii_dec x c); [apply IH; lia | reflexivity].
Qed.

Lemma drop_app_le i (s t : string) :
  (i <= String.length s)%nat -> Str.drop i (s ++ t) = Str.drop i s ++ t.
Proof.
  revert s; induction i as [|i IH]; intros s H.
  - now destruct s, t.
  - destruct s as [|c s]; cbn [String.length] in H; [lia|].
    cbn [append]. rewrite !drop_cons. apply IH. lia.
Qed.

Lemma occurs_at_bound (sub s : string) i :
  sub <> "" -> occurs_at sub s i ->
  (i + String.length sub <= String.length s)%nat.
Proof.
  intros Hsub H. unfold occurs_at in H.
  pose proof (prefix_length _ _ H) as L. rewrite length_drop in L.
  destruct sub as [|x sub]; [congruence|]. cbn [String.length] in *. lia.
Qed.

Lemma occurs_at_app_iff (sub s t : string) i :
  (i + String.length sub <= String.length s)%nat ->
  occurs_at sub (s ++ t) i <-> occurs_at sub s i.
Proof.
  intros H. unfold occurs_at.
  rewrite drop_app_le by lia.
  rewrite prefix_app_long; [tauto|]. rewrite length_drop. lia.
Qed.

Lemma first_from_app (sub s t : string) from k :
  sub <> "" -> first_from sub s from k -> first_from sub (s ++ t) from k.
Proof.
  intros Hsub (Hk & Ok & Lk).
  pose proof (occurs_at_bound Hsub Ok) as B.
  repeat split.
  - exact Hk.
  - now apply occurs_at_app_iff.
  - intros i Hi Oi. apply (Lk i Hi).
    apply (occurs_at_app_iff sub s t); [lia | exact Oi].
Qed.

Section ExtractorSuffix.

Context {R : Runtime}.

(** X4.  What follows the closing brace is never read: when the extractor
    returns a value for a script, it returns the same value for the script
    followed by any text. *)
Theorem extract_ignores_what_follows (js post : string) (v : json) :
  extract_swagger_doc_from_js js = Ok v ->
  extract_swagger_doc_from_js (js ++ post) = Ok v.
Proof.
  intros E.
  destruct (extract_total js) as (o & H & E0). rewrite E0 in E.
  assert (o = inr v) by (apply extract_result_injective; exact E).
  subst o. inversion H as [| | | |k b n v' Fk Fb C L]; subst.
  assert (Bb : (b + 1 <= String.length js)%nat).
  { destruct Fb as (_ & Ob & _).
    exact (@occurs_at_bound "{" js b ltac:(discriminate) Ob). }
  assert (O : extract_outcome (js ++ post) (inr v)).
  { apply outcome_value with k b n.
    - apply first_from_app; [discriminate | exact Fk].
    - apply first_from_app; [discriminate | exact Fb].
    - rewrite drop_app_le by lia. now apply closes_at_app.
    - rewrite drop_app_le by lia.
      rewrite take_app_le; [exact L|]. destruct C as [C _]. lia. }
  destruct (extract_total (js ++ post)) as (o1 & H1 & E1).
  now rewrite E1, <- (extract_outcome_functional O H1).
Qed.

End ExtractorSuffix.

Lemma extract_ignores_what_follows_witness :
  @extract_swagger_doc_from_js Demo.runtime
    (("var swaggerDoc = " ++ Demo.embedded_text)
     ++ "; } } unbalanced { text")
  = Ok Demo.embedded_object.
Proof.
  apply (@extract_ignores_what_follows Demo.runtime).
  vm_compute. reflexivity.
Defined.

(* ------------------------------------------------------------------ *)
(** ** Tool names and the slashes around an endpoint *)

Lemma rev_onto_app (a b acc : string) :
  Str.rev_onto (a ++ b) acc = Str.rev_onto b (Str.rev_onto a acc).
Proof.
  revert acc; induction a as [|x a IH]; intros acc; cbn; [reflexivity|].
  apply IH.
Qed.

Lemma lstrip_app_char (c : ascii) (s : string) :
  Str.lstrip c (s ++ String c "")
  = match Str.lstrip c s with
    | EmptyString => EmptyString
    | t => t ++ String c ""
    end.
Proof.
  induction s as [|x s IH]; cbn [append Str.lstrip].
  - now rewrite Ascii.eqb_refl.
  - destruct (Ascii.eqb x c); [exact IH | reflexivity].
Qed.

Lemma strip_leading (c : ascii) (s : string) :
  Str.strip c (String c s) = Str.strip c s.
Proof. unfold Str.strip. cbn [Str.lstrip]. now rewrite Ascii.eqb_refl. Qed.

Lemma strip_trailing (c : ascii) (s : string) :
  Str.strip c (s ++ String c "") = Str.strip c s.
Proof.
  unfold Str.strip. rewrite lstrip_app_char.
  destruct (Str.lstrip c s) as [|x t]; [reflexivity|].
  unfold Str.rev at 2. rewrite rev_onto_app. cbn [Str.rev_onto Str.lstrip].
  now rewrite Ascii.eqb_refl.
Qed.

(** X5.  Slashes around an endpoint do not show in the tool name: an
    endpoint with one more leading or trailing slash is given the same
    name, so that two such paths of one document collide. *)
Theorem sanitize_tool_name_ignores_outer_slashes (method endpoint : string) :
  sanitize_tool_name method ("/" ++ endpoint)
  = sanitize_tool_name method endpoint
  /\ sanitize_tool_name method (endpoint ++ "/")
     = sanitize_tool_name method endpoint.
Proof.
  unfold sanitize_tool_name. cbn [append].
  now rewrite strip_leading, strip_trailing.
Qed.

(* ------------------------------------------------------------------ *)
(** ** Optional arguments *)

Lemma has_key_resolved_defaults (ps : list json) (arg : string) :
  forall defaults,
    Py.has_key arg (resolved_defaults ps defaults)
    = Py.has_key arg defaults || optional_by_name ps arg.
Proof.
  unfold optional_by_name.
  induction ps as [|p ps IH]; intros defaults;
    cbn [resolved_defaults fold_left existsb].
  - now rewrite orb_false_r.
  - fold (resolved_defaults ps
            (if is_required p then defaults
             else Py.setitem (arg_name p) JNull defaults)).
    rewrite IH. destruct (is_required p); cbn [negb].
    + now rewrite andb_false_r.
    + rewrite has_key_setitem, andb_true_r.
      destruct (String.eqb (arg_name p) arg), (Py.has_key arg defaults);
        reflexivity.
Qed.

(** X6.  Whether an argument is optional is decided by its name alone: it
    has a default as soon as one parameter that resolves to it is not
    required, even when another parameter of the same name, say in another
    location, is required. *)
Theorem parse_parameters_optional_by_name (ps : list json) :
  List.forallb resolvable ps = true ->
  exists args defaults,
    parse_parameters (JArr ps) = Ok (args, defaults)
    /\ forall arg, Py.has_key arg defaults = optional_by_name ps arg.
Proof.
  intros H. exists (List.map arg_name ps), (resolved_defaults ps []).
  split; [now apply parse_parameters_ok|].
  intros arg. now rewrite has_key_resolved_defaults.
Qed.

Lemma parse_parameters_optional_by_name_witness :
  exists args defaults,
    parse_parameters (JArr [id_param;
                            JObj [("name", JStr "id"); ("in", JStr "query")]])
    = Ok (args, defaults)
    /\ Py.has_key "id" defaults = true.
Proof.
  destruct (@parse_parameters_optional_by_name
              [id_param; JObj [("name", JStr "id"); ("in", JStr "query")]]
              eq_refl)
    as (args & defaults & E & H).
  exists args, defaults. split; [exact E|]. now rewrite H.
Defined.

(* ------------------------------------------------------------------ *)
(** ** Where the arguments of a call go *)

Lemma collect_body_step (kwargs : dict) (p : json) (acc : dict * dict * dict) :
  named p = true ->
  (let '(path_params, query_params, headers) := acc in
   raw <- Py.getitem p "name" ;;
   param_location <- Py.get p "in" (JStr "query") ;;
   match raw with
   | JStr raw_name =>
       let sanitized_name := sanitize_name raw_name in
       let value := kwargs_get kwargs sanitized_name in
       if Py.is_none value then Ok acc
       else if Py.eq_str "path" param_location
       then Ok (Py.setitem raw_name value path_params,
                query_params, headers)
       else if Py.eq_str "query" param_location
       then Ok (path_params,
                Py.setitem raw_name value query_params, headers)
       else if Py.eq_str "header" param_location
       then Ok (path_params, query_params,
                Py.setitem raw_name value headers)
       else Ok acc
   | _ => Raise AttributeError
   end)%result
  = Ok (collect_step kwargs acc p).
Proof.
  intros H. destruct (named_inv _ H) as (d & n & -> & En).
  destruct acc as [[pp qp] hs].
  unfold collect_step, param_name, location, field.
  cbn [Py.getitem Py.get bind]. rewrite En. cbn [bind].
  repeat match goal with
         | |- context [if ?b then _ else _] => destruct b
         end; reflexivity.
Qed.

Lemma collect_params_fold (kwargs : dict) (ps : list json) :
  List.forallb named ps = true ->
  collect_params (JArr ps) kwargs
  = Ok (fold_left (collect_step kwargs) ps ([], [], [])).
Proof.
  intros H. unfold collect_params. cbn [Py.iter bind].
  generalize (@nil (string * json), @nil (string * json),
              @nil (string * json)).
  induction ps as [|p ps IH]; intros acc; [reflexivity|].
  cbn [List.forallb] in H. apply andb_true_iff in H as [Hp Hps].
  cbn [for_each fold_left].
  pose proof (@collect_body_step kwargs p acc Hp) as E.
  destruct acc as [[pp qp] hs].
  match goal with
  | |- bind ?m _ = _ =>
      replace m with (Ok (collect_step kwargs (pp, qp, hs) p))
        by (symmetry; exact E)
  end.
  cbn [bind]. now apply IH.
Qed.

Lemma eq_str_inv k (v : json) : Py.eq_str k v = true -> v = JStr k.
Proof.
  destruct v; cbn; try discriminate.
  intros H. apply String.eqb_eq in H. now subst.
Qed.

(** The effect of one round on one of the three mappings. *)
Lemma mapping_of_step (kwargs : dict) (w : place) (p : json) (n : string)
    (acc : dict * dict * dict) :
  param_name p = Some n ->
  mapping_of w (collect_step kwargs acc p)
  = if sent_in kwargs w p
    then Py.setitem n (kwargs_get kwargs (sanitize_name n)) (mapping_of w acc)
    else mapping_of w acc.
Proof.
  intros En. destruct acc as [[pp qp] hs].
  unfold collect_step, sent_in, arg_name. rewrite En.
  destruct (Py.is_none (kwargs_get kwargs (sanitize_name n))).
  - cbn [negb]. now rewrite andb_false_r.
  - cbn [negb]. rewrite andb_true_r.
    destruct (Py.eq_str "path" (location p)) eqn:E1.
    { rewrite (eq_str_inv _ _ E1). now destruct w. }
    destruct (Py.eq_str "query" (location p)) eqn:E2.
    { rewrite (eq_str_inv _ _ E2). now destruct w. }
    destruct (Py.eq_str "header" (location p)) eqn:E3.
    { rewrite (eq_str_inv _ _ E3). now destruct w. }
    destruct w; cbn [place_name]; rewrite ?E1, ?E2, ?E3; reflexivity.
Qed.

Lemma named_param_name (p : json) :
  named p = true -> exists n, param_name p = Some n.
Proof. unfold named. destruct (param_name p) as [n|]; [eauto | discriminate]. Qed.

Lemma collect_fold_values (kwargs : dict) (w : place) (ps : list json) :
  List.forallb named ps = true ->
  forall acc,
    (forall k v, Py.lookup k (mapping_of w acc) = Some v ->
                 v = kwargs_get kwargs (sanitize_name k)) ->
    forall k v,
      Py.lookup k (mapping_of w (fold_left (collect_step kwargs) ps acc))
      = Some v ->
      v = kwargs_get kwargs (sanitize_name k).
Proof.
  induction ps as [|p ps IH]; intros H acc Hacc; [exact Hacc|].
  cbn [List.forallb] in H. apply andb_true_iff in H as [Hp Hps].
  cbn [fold_left]. apply (IH Hps).
  destruct (named_param_name _ Hp) as [n En].
  rewrite (@mapping_of_step kwargs w p n acc En).
  destruct (sent_in kwargs w p); [|exact Hacc].
  intros k v. destruct (String.eqb_spec n k) as [->|N].
  - rewrite lookup_setitem_same. congruence.
  - rewrite lookup_setitem_other by congruence. apply Hacc.
Qed.

Lemma collect_fold_keeps_keys (kwargs : dict) (w : place) (ps : list json) k :
  List.forallb named ps = true ->
  forall acc,
    Py.has_key k (mapping_of w acc) = true ->
    Py.has_key k (mapping_of w (fold_left (collect_step kwargs) ps acc))
    = true.
Proof.
  induction ps as [|p ps IH]; intros H acc Hacc; [exact Hacc|].
  cbn [List.forallb] in H. apply andb_true_iff in H as [Hp Hps].
  cbn [fold_left]. apply (IH Hps).
  destruct (named_param_name _ Hp) as [n En].
  rewrite (@mapping_of_step kwargs w p n acc En).
  destruct (sent_in kwargs w p); [|exact Hacc].
  rewrite has_key_setitem, Hacc. apply orb_true_r.
Qed.

Lemma collect_fold_complete (kwargs : dict) (w : place) (ps : list json) :
  List.forallb named ps = true ->
  forall acc p n,
    In p ps -> param_name p = Some n -> sent_in kwargs w p = true ->
    Py.has_key n (mapping_of w (fold_left (collect_step kwargs) ps acc))
    = true.
Proof.
  induction ps as [|q ps IH]; intros H acc p n Hin En Hs; [destruct Hin|].
  cbn [List.forallb] in H. apply andb_true_iff in H as [Hq Hps].
  cbn [fold_left]. destruct Hin as [->|Hin].
  - apply (collect_fold_keeps_keys kwargs w ps n Hps).
    rewrite (@mapping_of_step kwargs w p n acc En), Hs.
    rewrite has_key_setitem, String.eqb_refl. reflexivity.
  - now apply (IH Hps _ p n).
Qed.

Lemma collect_fold_origin (kwargs : dict) (w : place) (ps : list json) k :
  List.forallb named ps = true ->
  forall acc,
    Py.has_key k (mapping_of w (fold_left (collect_step kwargs) ps acc))
    = true ->
    Py.has_key k (mapping_of w acc) = true
    \/ exists p, In p ps /\ param_name p = Some k
                 /\ sent_in kwargs w p = true.
Proof.
  induction ps as [|q ps IH]; intros H acc Hk; [now left|].
  cbn [List.forallb] in H. apply andb_true_iff in H as [Hq Hps].
  cbn [fold_left] in Hk.
  destruct (IH Hps _ Hk) as [Hacc|(p & Hin & En & Hs)].
  - destruct (named_param_name _ Hq) as [n En].
    rewrite (@mapping_of_step kwargs w q n acc En) in Hacc.
    destruct (sent_in kwargs w q) eqn:Hs; [|now left].
    rewrite has_key_setitem in Hacc.
    destruct (String.eqb_spec n k) as [->|N].
    + right. exists q. split; [now left | auto].
    + now left.
  - right. exists p. split; [now right | auto].
Qed.

(** X7.  Every argument that is given reaches the request: a parameter
    that declares the location [path], [query] or [header] and whose
    argument is not the absent sentinel is entered under its raw name in
    the mapping of that location, with the value the caller gave. *)
Theorem collect_params_sends_given_arguments (kwargs : dict) (ps : list json) :
  List.forallb named ps = true ->
  exists acc,
    collect_params (JArr ps) kwargs = Ok acc
    /\ forall w p n,
         In p ps -> param_name p = Some n -> sent_in kwargs w p = true ->
         Py.lookup n (mapping_of w acc)
         = Some (kwargs_get kwargs (sanitize_name n)).
Proof.
  intros H. eexists. split; [now apply collect_params_fold|].
  intros w p n Hin En Hs.
  pose proof (@collect_fold_complete kwargs w ps H ([], [], []) p n Hin En Hs)
    as Hk.
  unfold Py.has_key in Hk.
  destruct (Py.lookup n (mapping_of w
              (fold_left (collect_step kwargs) ps ([], [], []))))
    as [v|] eqn:L; [|discriminate].
  f_equal.
  apply (@collect_fold_values kwargs w ps H ([], [], [])); [|exact L].
  intros k v'. now destruct w.
Qed.

Lemma collect_params_sends_given_arguments_witness :
  exists acc,
    collect_params (JArr [id_param; limit_param])
                   [("id", JStr "5"); ("limit", JInt 10)]
    = Ok acc
    /\ Py.lookup "limit" (mapping_of InQuery acc) = Some (JInt 10).
Proof.
  destruct (@collect_params_sends_given_arguments
              [("id", JStr "5"); ("limit", JInt 10)]
              [id_param; limit_param] eq_refl)
    as (acc & E & H).
  exists acc. split; [exact E|].
  apply (H InQuery limit_param "limit"); [now right; left | | ]; reflexivity.
Defined.

(** X8.  Nothing else reaches the request: a name is a key of the path,
    query or header mapping only if a parameter of that name declares that
    location and its argument is given.  A parameter that declares another
    location, such as [cookie], is never sent. *)
Theorem collect_params_sends_declared_only (kwargs : dict) (ps : list json) :
  List.forallb named ps = true ->
  exists acc,
    collect_params (JArr ps) kwargs = Ok acc
    /\ forall w k,
         In k (Py.keys (mapping_of w acc)) ->
         exists p, In p ps /\ param_name p = Some k
                   /\ sent_in kwargs w p = true.
Proof.
  intros H. eexists. split; [now apply collect_params_fold|].
  intros w k Hk. apply in_keys_has_key in Hk.
  destruct (@collect_fold_origin kwargs w ps k H ([], [], []) Hk)
    as [Habs|Hp]; [|exact Hp].
  now destruct w.
Qed.

Lemma collect_params_sends_declared_only_witness :
  collect_params
    (JArr [JObj [("name", JStr "session"); ("in", JStr "cookie")]])
    [("session", JStr "abc")]
  = Ok ([], [], []).
Proof.
  destruct (@collect_params_sends_declared_only
              [("session", JStr "abc")]
              [JObj [("name", JStr "session"); ("in", JStr "cookie")]]
              eq_refl)
    as (acc & E & _).
  rewrite E. vm_compute in E. exact (eq_sym E).
Defined.

(* ------------------------------------------------------------------ *)
(** ** The signature [build_func] gives a tool *)








Example build_func_colliding_names :
  build_func "/pets" "get"
    (JObj [("parameters",
            JArr [JObj [("name", JStr "api-key"); ("in", JStr "header")];
                  JObj [("name", JStr "api_key"); ("in", JStr "query")]])])
  = Raise (ValueError "duplicate parameter name: 'api_key'").
Proof. vm_compute. reflexivity. Qed.






(* ------------------------------------------------------------------ *)
(** ** The registration loop *)






Example register_spec_shared_parameters :
  register_spec
    (JObj [("paths",
            JObj [("/pet/{petId}",
                   JObj [("get", JObj [("summary", JStr "Find pet")]);
                         ("parameters",
                          JArr [JObj [("name", JStr "petId");
                                      ("in", JStr "path");
                                      ("required", JBool true)]])])])])
  = Raise AttributeError.
Proof. vm_compute. reflexivity. Qed.

(* ------------------------------------------------------------------ *)
(** ** The network calls of registration *)

Section OneCall.

Context {R : Runtime}.

Lemma get_openapi_spec_log (log : list http_call) :
  snd (get_openapi_spec log) = (log ++ [spec_call])%list.
Proof.
  unfold get_openapi_spec, io_try, io_bind, io_lift, io_raise, request.
  fold spec_call.
  destruct (send log spec_call) as [msg|resp]; [reflexivity|].
  destruct (raise_for_status resp) as [[]|e];
    [|destruct (is_RequestException e); reflexivity].
  repeat match goal with
         | |- context [if ?b then _ else _] => destruct b
         | |- context [match ?r with Ok _ => _ | Raise _ => _ end] =>
             destruct r
         end; reflexivity.
Qed.

(** X12.  Registration makes exactly one network call, the fetch of the
    specification, whatever the document and whether it succeeds or
    raises: building and registering the tools calls nothing. *)
Theorem register_all_tools_one_call (log : list http_call) :
  snd (register_all_tools log) = (log ++ [spec_call])%list.
Proof.
  unfold register_all_tools, io_bind, io_lift.
  pose proof (get_openapi_spec_log log) as H.
  destruct (get_openapi_spec log) as [[spec|e] log']; cbn in H |- *;
    exact H.
Qed.

End OneCall.

(* ------------------------------------------------------------------ *)
(** ** What the transport returns *)

Section TransportResult.

Context {R : Runtime}.

Lemma after_call_value (c : http_call) (log : list http_call) :
  io_try
    (response <- request c ;;
     match response_json response with
     | Ok v => io_ret v
     | Raise e =>
         if is_ValueError e
         then io_ret (JObj [("raw_response", JStr (text response))])
         else io_raise e
     end)%io
    is_RequestException
    (fun e =>
       io_ret (JObj [("error", JStr ("API request failed: " ++ exn_str e))]))
    log
  = (Ok (transport_result (send log c)), (log ++ [c])%list).
Proof.
  unfold io_try, io_bind, request, response_json, transport_result.
  destruct (send log c) as [msg|resp]; [reflexivity|].
  destruct (json_loads (text resp)) as [msg|v]; reflexivity.
Qed.

(** The result of the transport for a known verb. *)
Lemma make_api_request_value (rq : api_request) (v : verb)
    (log : list http_call) :
  verb_of (rq_method rq) = Some v ->
  exists call,
    transport_calls rq = [call]
    /\ c_verb call = v
    /\ c_url call = BASE_URL ++ rq_path rq
    /\ make_api_request (rq_method rq) (rq_path rq) (rq_data rq)
                        (rq_params rq) (rq_headers rq) log
       = (Ok (transport_result (send log call)), (log ++ [call])%list).
Proof.
  intros Hv. unfold transport_calls. rewrite Hv.
  eexists. split; [reflexivity|]. split; [reflexivity|].
  split; [reflexivity|].
  unfold make_api_request. cbv zeta.
  assert (Hh : (if Py.truthy (JObj (rq_headers rq))
                then Py.update default_headers (rq_headers rq)
                else default_headers)
               = match rq_headers rq with
                 | [] => default_headers
                 | hs => Py.update default_headers hs
                 end)
    by (destruct (rq_headers rq); reflexivity).
  fold default_headers. rewrite Hh.
  unfold verb_of in Hv. cbv zeta in Hv.
  destruct (String.eqb (Str.lower (rq_method rq)) "get");
    [injection Hv as <-; apply after_call_value|].
  destruct (String.eqb (Str.lower (rq_method rq)) "post");
    [injection Hv as <-; apply after_call_value|].
  destruct (String.eqb (Str.lower (rq_method rq)) "put");
    [injection Hv as <-; apply after_call_value|].
  destruct (String.eqb (Str.lower (rq_method rq)) "delete");
    [injection Hv as <-; apply after_call_value|].
  discriminate.
Qed.

(** X13.  For a known verb the transport makes one call, never raises and
    never looks at the status of the response: its result is the body
    parsed as JSON, an object holding the raw body when the body is no
    JSON, or an error object when the call itself failed.  A response
    with status 404 or 500 is returned like any other. *)
Theorem make_api_request_result (rq : api_request) (v : verb)
    (log : list http_call) :
  verb_of (rq_method rq) = Some v ->
  exists call,
    transport_calls rq = [call]
    /\ c_verb call = v
    /\ c_url call = BASE_URL ++ rq_path rq
    /\ make_api_request (rq_method rq) (rq_path rq) (rq_data rq)
                        (rq_params rq) (rq_headers rq) log
       = (Ok (transport_result (send log call)), (log ++ [call])%list).
Proof. exact (make_api_request_value rq log). Qed.

(** X14.  A tool whose method is none of [get], [post], [put] and
    [delete], in any case of letters, never calls the network: its handler
    returns the text of the error [Invalid HTTP method]. *)
Theorem api_tool_unknown_method (endpoint method : string)
    (ps : list json) (request_body : json) (kwargs : dict)
    (log : list http_call) :
  verb_of method = None ->
  List.forallb named ps = true ->
  api_tool endpoint method (JArr ps) request_body kwargs log
  = (Ok (error_text "Invalid HTTP method" "No additional details"), log).
Proof.
  intros Hv Hps.
  destruct (@collect_params_ok kwargs ps Hps) as (pp & qp & hs & E & _).
  unfold api_tool, io_bind, io_lift, io_ret.
  rewrite (@api_tool_request_ok R endpoint method request_body kwargs
             ps pp qp hs E).
  cbn [rq_method rq_path rq_data rq_params rq_headers].
  unfold make_api_request, io_try, io_ret. cbv zeta.
  unfold verb_of in Hv. cbv zeta in Hv.
  destruct (String.eqb (Str.lower method) "get"); [discriminate|].
  destruct (String.eqb (Str.lower method) "post"); [discriminate|].
  destruct (String.eqb (Str.lower method) "put"); [discriminate|].
  destruct (String.eqb (Str.lower method) "delete"); [discriminate|].
  reflexivity.
Qed.

(** X15.  A failure of the network never raises out of a handler: when
    the call fails with a message, the handler returns the text of the
    error [API request failed:] with that message. *)
Theorem api_tool_transport_failure (endpoint method : string)
    (ps : list json) (request_body : json) (kwargs : dict)
    (log : list http_call) (v : verb) (msg : string) :
  verb_of method = Some v ->
  List.forallb named ps = true ->
  (forall call, send log call = inl msg) ->
  exists call,
    api_tool endpoint method (JArr ps) request_body kwargs log
    = (Ok (error_text ("API request failed: " ++ msg)
                      "No additional details"),
       (log ++ [call])%list).
Proof.
  intros Hv Hps Hsend.
  destruct (@collect_params_ok kwargs ps Hps) as (pp & qp & hs & E & _).
  pose proof (@api_tool_request_ok R endpoint method request_body kwargs
                ps pp qp hs E) as Erq.
  unfold api_tool, io_bind, io_lift, io_ret. rewrite Erq.
  match goal with
  | |- context [make_api_request (rq_method ?rq) _ _ _ _ _] =>
      destruct (@make_api_request_value rq v log Hv)
        as (call & _ & _ & _ & Ecall)
  end.
  rewrite Ecall, Hsend. exists call. reflexivity.
Qed.

End TransportResult.

Lemma make_api_request_result_witness :
  exists call,
    @make_api_request (Demo.canned 404 "text/html" "Not Found")
      "GET" "/pet/0" JNull [] [] []
    = (Ok (JObj [("raw_response", JStr "Not Found")]), [call]).
Proof.
  destruct (@make_api_request_result
              (Demo.canned 404 "text/html" "Not Found")
              (ApiRequest "GET" "/pet/0" JNull [] []) GET [] eq_refl)
    as (call & _ & _ & _ & E).
  exists call. exact E.
Defined.

Lemma api_tool_unknown_method_witness :
  @api_tool Demo.runtime "/pet/{id}" "patch" (JArr [id_param]) JNull
            [("id", JStr "5")] []
  = (Ok (error_text "Invalid HTTP method" "No additional details"), []).
Proof.
  exact (@api_tool_unknown_method Demo.runtime "/pet/{id}" "patch"
           [id_param] JNull [("id", JStr "5")] [] eq_refl eq_refl).
Defined.

Lemma api_tool_transport_failure_witness :
  exists call,
    @api_tool offline_runtime "/pet/{id}" "get" (JArr [id_param]) JNull
              [("id", JStr "5")] []
    = (Ok (error_text "API request failed: Connection refused"
                      "No additional details"),
       [call]).
Proof.
  exact (@api_tool_transport_failure offline_runtime "/pet/{id}" "get"
           [id_param] JNull [("id", JStr "5")] [] GET "Connection refused"
           eq_refl eq_refl (fun _ => eq_refl)).
Defined.

(* ------------------------------------------------------------------ *)
(** ** The headers of a call *)

Lemma lookup_not_key k (d : dict) : ~ In k (Py.keys d) -> Py.lookup k d = None.
Proof.
  intros H. destruct (Py.lookup k d) as [v|] eqn:E; [|reflexivity].
  exfalso. apply H. apply in_keys_has_key. unfold Py.has_key. now rewrite E.
Qed.

(** [d.update(e)]: the bindings of [e] win, the others of [d] stay. *)
Lemma lookup_update (e : dict) :
  NoDup (Py.keys e) ->
  forall d k,
    Py.lookup k (Py.update d e)
    = match Py.lookup k e with
      | Some v => Some v
      | None => Py.lookup k d
      end.
Proof.
  unfold Py.update.
  induction e as [|[k0 v0] e IH]; intros Hnd d k; [reflexivity|].
  cbn [Py.keys List.map fst] in Hnd. inversion Hnd as [|x l Hx Hnd']; subst.
  cbn [fold_left fst snd Py.lookup]. rewrite (IH Hnd').
  destruct (String.eqb_spec k0 k) as [->|N].
  - rewrite (lookup_not_key _ _ Hx). apply lookup_setitem_same.
  - destruct (Py.lookup k e); [reflexivity|].
    apply lookup_setitem_other. congruence.
Qed.

Section Headers.

Context {R : Runtime}.

(** X16.  The headers of a call are the two defaults, [Content-Type] and
    [Accept] set to [application/json], overridden by the headers given:
    a given header replaces a default of the same name, every other given
    header is added, and a default that is not given stays. *)
Theorem make_api_request_headers (method endpoint : string) (data : json)
    (params headers : dict) (v : verb) (log : list http_call) :
  verb_of method = Some v ->
  NoDup (Py.keys headers) ->
  exists result call sent,
    make_api_request method endpoint data params headers log
    = (Ok result, (log ++ [call])%list)
    /\ c_headers call = Some sent
    /\ forall k,
         Py.lookup k sent
         = match Py.lookup k headers with
           | Some x => Some x
           | None => Py.lookup k default_headers
           end.
Proof.
  intros Hv Hnd.
  destruct (@make_api_request_value R
              (ApiRequest method endpoint data params headers) v log Hv)
    as (call & Ecalls & _ & _ & E).
  cbn [rq_method rq_path rq_data rq_params rq_headers] in E.
  assert (Hc : c_headers call
               = Some (match headers with
                       | [] => default_headers
                       | hs => Py.update default_headers hs
                       end)).
  { unfold transport_calls in Ecalls. cbn [rq_method rq_headers] in Ecalls.
    rewrite Hv in Ecalls. injection Ecalls as Ec. rewrite <- Ec.
    cbn [c_headers]. now destruct headers. }
  eexists. exists call. eexists. split; [exact E|].
  split; [exact Hc|].
  intros k. destruct headers as [|h hs]; [reflexivity|].
  now apply lookup_update.
Qed.

End Headers.

Lemma make_api_request_headers_witness :
  exists result call sent,
    @make_api_request Demo.runtime "get" "/pets" JNull []
       [("Accept", JStr "text/plain"); ("X-Api-Key", JStr "k")] []
    = (Ok result, [call])
    /\ c_headers call = Some sent
    /\ Py.lookup "Accept" sent = Some (JStr "text/plain")
    /\ Py.lookup "Content-Type" sent = Some (JStr "application/json")
    /\ Py.lookup "X-Api-Key" sent = Some (JStr "k").
Proof.
  destruct (@make_api_request_headers Demo.runtime "get" "/pets" JNull []
              [("Accept", JStr "text/plain"); ("X-Api-Key", JStr "k")]
              GET [] eq_refl)
    as (result & call & sent & E & Hc & H).
  { repeat constructor; cbn; intuition discriminate. }
  exists result, call, sent. split; [exact E|]. split; [exact Hc|].
  rewrite !H. repeat split.
Defined.

(* ------------------------------------------------------------------ *)
(** ** petstore_server.py: the transport *)

Section PetstoreTransport.

Context {R : Runtime}.

Lemma petstore_after_call (c : http_call) (log : list http_call) :
  io_try
    (response <- request c ;;
     if 400 <=? status_code response
     then io_ret (JObj [("error",
                         JStr ("API returned status code "
                               ++ PyStr.decimal (status_code response)));
                        ("details", JStr (text response))])
     else
       match response_json response with
       | Ok v => io_ret v
       | Raise e =>
           if is_ValueError e
           then io_ret (JObj [("raw_response", JStr (text response))])
           else io_raise e
       end)%io
    is_RequestException
    (fun e =>
       io_ret (JObj [("error", JStr ("API request failed: " ++ exn_str e))]))
    log
  = (Ok (petstore_result (send log c)), (log ++ [c])%list).
Proof.
  unfold io_try, io_bind, request, response_json, petstore_result.
  destruct (send log c) as [msg|resp]; [reflexivity|].
  destruct (400 <=? status_code resp); [reflexivity|].
  destruct (json_loads (text resp)) as [msg|v]; reflexivity.
Qed.

Lemma petstore_make_api_request_value (method endpoint : string)
    (data : json) (params : option dict) (log : list http_call) :
  Petstore.make_api_request method endpoint data params log
  = match verb_of method with
    | Some v =>
        let call := petstore_call v endpoint data params in
        (Ok (petstore_result (send log call)), (log ++ [call])%list)
    | None => (Ok (JObj [("error", JStr "Invalid HTTP method")]), log)
    end.
Proof.
  unfold Petstore.make_api_request, verb_of, petstore_call. cbv zeta.
  fold default_headers.
  destruct (String.eqb (Str.lower method) "get");
    [apply petstore_after_call|].
  destruct (String.eqb (Str.lower method) "post");
    [apply petstore_after_call|].
  destruct (String.eqb (Str.lower method) "put");
    [apply petstore_after_call|].
  destruct (String.eqb (Str.lower method) "delete");
    [apply petstore_after_call|].
  reflexivity.
Qed.

(** X17.  The transport of petstore_server.py never raises.  For [get],
    [post], [put] and [delete] it makes one call to the base URL, a slash
    and the endpoint, passing the query parameters on [get] only, so that
    they are dropped on [delete], and the payload on [post] and [put]
    only; a response with status 400 or more gives an error object with
    the status and the raw body, which is not parsed.  For any other
    method it makes no call. *)
Theorem petstore_make_api_request_result (method endpoint : string)
    (data : json) (params : option dict) (log : list http_call) :
  Petstore.make_api_request method endpoint data params log
  = match verb_of method with
    | Some v =>
        (Ok (petstore_result
               (send log (petstore_call v endpoint data params))),
         (log ++ [petstore_call v endpoint data params])%list)
    | None => (Ok (JObj [("error", JStr "Invalid HTTP method")]), log)
    end.
Proof. exact (petstore_make_api_request_value method endpoint data params log). Qed.

End PetstoreTransport.

Example petstore_delete_drops_params :
  snd (@Petstore.make_api_request Demo.runtime "DELETE" "pet/7" JNull
         (Some [("api_key", JStr "k")]) [])
  = [Call DELETE "https://petstore.swagger.io/v2/pet/7" JNull None
          (Some default_headers)].
Proof. vm_compute. reflexivity. Qed.

Example petstore_not_found :
  fst (@Petstore.make_api_request (Demo.canned 404 "application/json" "{}")
         "get" "pet/0" JNull None [])
  = Ok (JObj [("error", JStr "API returned status code 404");
              ("details", JStr "{}")]).
Proof. vm_compute. reflexivity. Qed.

(* ------------------------------------------------------------------ *)
(** ** petstore_server.py: formatting *)

Section PetstoreFormat.

Context {R : Runtime}.

Lemma pet_line_ok (pet : json) :
  match Petstore.pet_line pet with
  | Ok _ => is_object pet = true
  | Raise e => is_object pet = false /\ e = AttributeError
  end.
Proof. destruct pet; cbn; auto. Qed.

Lemma pet_lines_ok (l : list json) :
  forall summary,
    match for_each (fun summary pet =>
                      line <- Petstore.pet_line pet ;;
                      Ok (summary ++ line))%result
                   l summary with
    | Ok _ => List.forallb is_object l = true
    | Raise e => List.forallb is_object l = false /\ e = AttributeError
    end.
Proof.
  induction l as [|pet l IH]; intros summary; [reflexivity|].
  cbn [for_each List.forallb].
  pose proof (pet_line_ok pet) as Hp.
  destruct (Petstore.pet_line pet) as [line|e]; cbn [bind].
  - rewrite Hp. cbn [andb]. apply IH.
  - destruct Hp as [-> ->]. auto.
Qed.

Lemma petstore_format_cases (response : json) (query_context : string) :
  match Petstore.format_api_response response query_context with
  | Ok _ =>
      prefix "find pet" (Str.lower query_context) && unformattable response
      = false
  | Raise e =>
      prefix "find pet" (Str.lower query_context) && unformattable response
      = true
      /\ e = AttributeError
  end.
Proof.
  unfold Petstore.format_api_response, unformattable.
  destruct response as [| | | | |l|d]; try (cbn; apply andb_false_r).
  - destruct (Z.eqb_spec (Z.of_nat (List.length l)) 0) as [Z0|NZ].
    + destruct l; [|cbn in Z0; lia]. cbn. apply andb_false_r.
    + destruct (prefix "find pet" (Str.lower query_context));
        [|reflexivity].
      cbn [andb].
      match goal with
      | |- context [for_each ?f ?xs ?s] =>
          pose proof (pet_lines_ok xs s) as Hl;
          destruct (for_each f xs s) as [summary|e]
      end; cbn [bind].
      * now rewrite Hl.
      * destruct Hl as [-> ->]. auto.
  - cbn. destruct (Py.lookup "error" d); apply andb_false_r.
Qed.

(** X18.  Formatting raises in one case only: the response is a list, the
    query context begins with [find pet] in any case of letters, and one
    of the first five items of the list is no object; the exception is
    then [AttributeError].  An error object, an empty list, a list in any
    other context and any other value are always formatted. *)
Theorem petstore_format_raises (response : json) (query_context : string) :
  match Petstore.format_api_response response query_context with
  | Ok _ =>
      prefix "find pet" (Str.lower query_context) && unformattable response
      = false
  | Raise e =>
      prefix "find pet" (Str.lower query_context) && unformattable response
      = true
      /\ e = AttributeError
  end.
Proof. exact (petstore_format_cases response query_context). Qed.

End PetstoreFormat.

(* ------------------------------------------------------------------ *)
(** ** petstore_server.py: the tools *)

Section PetstoreTools.

Context {R : Runtime}.

Lemma petstore_tool_call (method endpoint : string) (data : json)
    (params : option dict) (query_context : string) (v : verb)
    (log : list http_call) :
  verb_of method = Some v ->
  Petstore.tool_call method endpoint data params query_context log
  = (Petstore.format_api_response
       (petstore_result (send log (petstore_call v endpoint data params)))
       query_context,
     (log ++ [petstore_call v endpoint data params])%list).
Proof.
  intros Hv. unfold Petstore.tool_call, io_bind, io_lift.
  rewrite petstore_make_api_request_value, Hv. reflexivity.
Qed.

Lemma petstore_tool_call_ok (method endpoint : string) (data : json)
    (params : option dict) (query_context : string) (v : verb)
    (log : list http_call) :
  verb_of method = Some v ->
  prefix "find pet" (Str.lower query_context) = false ->
  exists out,
    Petstore.tool_call method endpoint data params query_context log
    = (Ok out, (log ++ [petstore_call v endpoint data params])%list).
Proof.
  intros Hv Hctx. rewrite (petstore_tool_call _ _ _ _ _ log Hv).
  match goal with
  | |- context [Petstore.format_api_response ?r ?c] =>
      pose proof (petstore_format_cases r c) as Hf;
      destruct (Petstore.format_api_response r c) as [out|e]
  end.
  - now exists out.
  - destruct Hf as [Hf _]. rewrite Hctx in Hf. discriminate.
Qed.

(** X19.  The tools that fetch or create one resource never raise and make
    exactly one call each: [get_pet_by_id], [get_inventory],
    [get_order_by_id], [get_user_by_username] and [login_user] a [get]
    without payload, [place_order] and [create_user] a [post] whose payload
    is the order or the user and which carries no query parameter. *)
Theorem petstore_tools_single_call (log : list http_call) :
  (forall pet_id, exists out,
      Petstore.get_pet_by_id pet_id log
      = (Ok out,
         (log ++ [petstore_call GET ("pet/" ++ PyStr.decimal pet_id)
                                JNull None])%list))
  /\ (exists out,
        Petstore.get_inventory log
        = (Ok out,
           (log ++ [petstore_call GET "store/inventory" JNull None])%list))
  /\ (forall order_id, exists out,
        Petstore.get_order_by_id order_id log
        = (Ok out,
           (log ++ [petstore_call GET
                      ("store/order/" ++ PyStr.decimal order_id)
                      JNull None])%list))
  /\ (forall username, exists out,
        Petstore.get_user_by_username username log
        = (Ok out,
           (log ++ [petstore_call GET ("user/" ++ username)
                                  JNull None])%list))
  /\ (forall username password, exists out,
        Petstore.login_user username password log
        = (Ok out,
           (log ++ [petstore_call GET "user/login" JNull
                      (Some [("username", JStr username);
                             ("password", JStr password)])])%list))
  /\ (forall pet_id quantity status complete, exists out call,
        Petstore.place_order pet_id quantity status complete log
        = (Ok out, (log ++ [call])%list)
        /\ c_verb call = POST /\ c_params call = None
        /\ c_json call
           = JObj [("petId", JInt pet_id); ("quantity", JInt quantity);
                   ("status", JStr status); ("complete", JBool complete)])
  /\ (forall username first_name last_name email password phone user_status,
      exists out call,
        Petstore.create_user username first_name last_name email password
                             phone user_status log
        = (Ok out, (log ++ [call])%list)
        /\ c_verb call = POST /\ c_params call = None
        /\ c_json call
           = JObj [("username", JStr username);
                   ("firstName", JStr first_name);
                   ("lastName", JStr last_name); ("email", JStr email);
                   ("password", JStr password); ("phone", JStr phone);
                   ("userStatus", JInt user_status)]).
Proof.
  repeat split; intros;
    try (apply petstore_tool_call_ok; reflexivity).
  - destruct (@petstore_tool_call_ok "post" "store/order"
                (JObj [("petId", JInt pet_id); ("quantity", JInt quantity);
                       ("status", JStr status); ("complete", JBool complete)])
                None "Place a new order in the store" POST log
                eq_refl eq_refl) as [out E].
    exists out. eexists. split; [exact E|]. repeat split.
  - destruct (@petstore_tool_call_ok "post" "user"
                (JObj [("username", JStr username);
                       ("firstName", JStr first_name);
                       ("lastName", JStr last_name); ("email", JStr email);
                       ("password", JStr password); ("phone", JStr phone);
                       ("userStatus", JInt user_status)])
                None "Create a new user" POST log eq_refl eq_refl)
      as [out E].
    exists out. eexists. split; [exact E|]. repeat split.
Qed.

(** X20.  The two tools that list pets make exactly one call and raise in
    one case only: the server answered with a status below 400 and a JSON
    list one of whose first five items is no object; they then raise
    [AttributeError].  A failed call, an error status and a body that is
    no JSON are all reported in the text returned. *)
Theorem petstore_find_pets_raise (log : list http_call) :
  (forall status,
      let call := petstore_call GET "pet/findByStatus" JNull
                                (Some [("status", JStr status)]) in
      snd (Petstore.find_pets_by_status status log) = (log ++ [call])%list
      /\ match fst (Petstore.find_pets_by_status status log) with
         | Ok _ => unformattable (petstore_result (send log call)) = false
         | Raise e =>
             unformattable (petstore_result (send log call)) = true
             /\ e = AttributeError
         end)
  /\ (forall tags,
        exists call,
          snd (Petstore.find_pets_by_tags tags log) = (log ++ [call])%list
          /\ match fst (Petstore.find_pets_by_tags tags log) with
             | Ok _ => unformattable (petstore_result (send log call)) = false
             | Raise e =>
                 unformattable (petstore_result (send log call)) = true
                 /\ e = AttributeError
             end).
Proof.
  split.
  - intros status call. subst call.
    unfold Petstore.find_pets_by_status.
    rewrite (@petstore_tool_call "get" "pet/findByStatus" JNull
               (Some [("status", JStr status)]) "Find pets by their status"
               GET log eq_refl).
    split; [reflexivity|]. cbn [fst].
    match goal with
    | |- context [Petstore.format_api_response ?r ?c] =>
        pose proof (petstore_format_cases r c) as Hf;
        destruct (Petstore.format_api_response r c) as [out|e]
    end; exact Hf.
  - intros tags. unfold Petstore.find_pets_by_tags. cbv zeta.
    eexists.
    rewrite (@petstore_tool_call "get" "pet/findByTags" JNull
               _ "Find pets by tags" GET log eq_refl).
    split; [reflexivity|]. cbn [fst].
    match goal with
    | |- context [Petstore.format_api_response ?r ?c] =>
        pose proof (petstore_format_cases r c) as Hf;
        destruct (Petstore.format_api_response r c) as [out|e]
    end; exact Hf.
Qed.

End PetstoreTools.

Example petstore_find_pets_raises_on_numbers :
  fst (@Petstore.find_pets_by_status
         (Demo.canned 200 "application/json" "[1, 2]") "sold" [])
  = Raise AttributeError.
Proof. vm_compute. reflexivity. Qed.

(* ------------------------------------------------------------------ *)
(** ** petstore_server.py: the tags of [find_pets_by_tags] *)














Lemma starts_clean_app (a b : string) :
  a <> "" -> starts_clean (a ++ b) = starts_clean a.
Proof. destruct a; [congruence | reflexivity]. Qed.


Section PetstoreTags.

Context {R : Runtime}.


End PetstoreTags.

Example petstore_tags_sent :
  List.map Petstore.strip_ws (Petstore.split "," " cute , small,, ")
  = ["cute"; "small"; ""; ""].
Proof. vm_compute. reflexivity. Qed.


(* ------------------------------------------------------------------ *)
(** ** The names of the two servers *)

Section ToolNames.

Lemma length_filter_le f (s : string) :
  (String.length (Str.filter f s) <= String.length s)%nat.
Proof.
  induction s as [|c s IH]; simpl; [lia|].
  destruct (f c); simpl; lia.
Qed.

Lemma filter_fixed f (s : string) :
  Str.filter f s = s <-> Str.forallb f s = true.
Proof.
  induction s as [|c s IH]; simpl; [tauto|].
  destruct (f c) eqn:E; simpl.
  - split.
    + intros H. injection H as H. now apply IH.
    + intros H. f_equal. now apply IH.
  - split; [|discriminate].
    intros H. pose proof (length_filter_le f s) as L.
    rewrite H in L. simpl in L. lia.
Qed.

(** X22.  [sanitize_tool_name] gives a tool the name the earlier server
    registers it under, the one built at line 89 of
    petstore_server_dynamic.py, exactly when that name is a tool
    identifier already: one to sixty-four letters, digits, underscores and
    hyphens.  Every other name is changed. *)
Theorem sanitize_tool_name_keeps_identifiers (method endpoint : string) :
  sanitize_tool_name method endpoint = Dynamic.tool_name method endpoint
  <-> matches_tool_name_pattern (Dynamic.tool_name method endpoint) = true.
Proof.
  unfold sanitize_tool_name. cbv zeta. fold (Dynamic.tool_name method endpoint).
  set (raw_name := Dynamic.tool_name method endpoint).
  pose proof (length_filter_le allowed_char raw_name) as Lf.
  unfold matches_tool_name_pattern.
  rewrite <- (forallb_ext _ _ raw_name allowed_char_alphabet).
  assert (Hpos : (1 <= String.length raw_name)%nat).
  { unfold raw_name, Dynamic.tool_name. rewrite !length_app. simpl. lia. }
  rewrite (proj2 (Nat.leb_le _ _) Hpos), Bool.andb_true_r.
  destruct (Z.ltb_spec 64 (Z.of_nat (String.length
                                       (Str.filter allowed_char raw_name))))
    as [L|L].
  - split.
    + intros H. apply (f_equal String.length) in H.
      rewrite !length_app, !length_take, length_hexdigest in H.
      cbn [String.length] in H. lia.
    + intros H. apply Bool.andb_true_iff in H. destruct H as [Ha Hl].
      apply Nat.leb_le in Hl. apply filter_fixed in Ha.
      rewrite Ha in L. lia.
  - split.
    + intros H. rewrite H in L. apply Bool.andb_true_iff. split.
      * now apply filter_fixed.
      * apply Nat.leb_le. lia.
    + intros H. apply Bool.andb_true_iff in H. now apply filter_fixed.
Qed.

Example tool_name_kept :
  sanitize_tool_name "get" "/pet/{petId}" = Dynamic.tool_name "get" "/pet/{petId}".
Proof. vm_compute. reflexivity. Qed.

Example tool_name_changed :
  Dynamic.tool_name "get" "/pet/{pet.id}" = "get_pet_pet.id"
  /\ sanitize_tool_name "get" "/pet/{pet.id}" = "get_pet_petid".
Proof. vm_compute. split; reflexivity. Qed.

End ToolNames.
